(** * The drawing engine of canvas-app (src/app/page.tsx, component DrawingApp)

    A shallow embedding of the React component: its state variables, its
    event handlers, its two effects and the image-load callbacks it leaves
    behind, over a small model of the 2D canvas the handlers draw on.

    page.tsx holds the component twice, the second copy without the
    comments; the model follows it line by line.  [saveImage] changes no
    state and is left out.

    Conventions.
    - JS numbers used as coordinates and sizes are rationals [Q]: every
      value the handlers compute from their inputs ([a - b], [n / 2]) is
      exact there.  [Math.hypot] is kept through its square.
    - The canvas bitmap is the idealised plane: a pixel is a point of
      [Q * Q], either transparent or painted with one style; no
      anti-aliasing, no alpha blending.  Pixel [i] of a row is the
      interval from [i] to [i + 1]: a rectangle that is cleared holds its
      left and top edge and not its right and bottom edge.  A stroke
      paints the pixels whose centre lies in the band, the caps or the
      joins the Canvas standard gives it.
    - An [Image] fires [load] only when its source is an image: for the
      empty string the browser fires [error], and the [onload] the
      component has set never runs.
    - A layer is a JS object; arrays of layers hold references to those
      objects, and [newLayers[i].data = v] writes through the reference.
      The model keeps the objects in [heap] and the arrays as lists of
      references.
    - An exception leaves the handler where it is thrown; what the handler
      did before stays done. *)

From Stdlib Require Import QArith Qminmax Lqa String List ZArith Bool Lia DecimalString.
From stdpp Require Import base list.
Import ListNotations.

Local Open Scope string_scope.

(** ** The 2D canvas *)

Module Canvas2D.

Local Open Scope Q_scope.

Definition point : Type := Q * Q.

(** [None] is a transparent pixel, [Some c] one painted with style [c]. *)
Definition Pixel : Type := option string.

(** A decoded image: its size and its pixels. *)
Record Image : Type := mkImage {
  naturalWidth : Q;
  naturalHeight : Q;
  imagePixels : point -> Pixel
}.

(** The strings the component stores in [layer.data], [history] and
    [redoStack] and assigns to [img.src]: the empty string, or what
    [canvas.toDataURL()] returned (a PNG, lossless). *)
Inductive DataURL : Type :=
| EmptyURL
| PngURL (img : Image).

(** [s || ""] on such a string. *)
Definition orEmpty (o : option DataURL) : DataURL :=
  match o with
  | Some (PngURL img) => PngURL img
  | Some EmptyURL => EmptyURL
  | None => EmptyURL
  end.

Definition Qlt_bool (a b : Q) : bool := negb (Qle_bool b a).

(** Whether an [Image] given this source ever fires [load].  The empty
    string is no image, and neither is what [toDataURL] returns for a
    canvas without pixels (["data:,"]): the browser fires [error] for
    them, never [load]. *)
Definition loads (src : DataURL) : bool :=
  match src with
  | EmptyURL => false
  | PngURL img => Qlt_bool 0 (naturalWidth img) && Qlt_bool 0 (naturalHeight img)
  end.

(** The image behind a source; one that does not load carries no pixel. *)
Definition decode (src : DataURL) : Image :=
  match src with
  | EmptyURL => mkImage 0 0 (fun _ => None)
  | PngURL img => if loads src then img else mkImage 0 0 (fun _ => None)
  end.

(** Path segments of the context: [moveTo], [lineTo], and the full circle
    [arc(x, y, r, 0, 2 * Math.PI)] with [r] given by its square. *)
Inductive Seg : Type :=
| MoveTo (p : point)
| LineTo (p : point)
| Arc (c : point) (radius2 : Q).

Record Context2D : Type := mkContext {
  strokeStyle : string;
  lineWidth : Q;
  lineCap : string;
  path : list Seg
}.

(** The canvas element: bitmap size, bitmap, and the layout box the
    component reads ([offsetWidth], [offsetHeight], [getBoundingClientRect]). *)
Record Canvas : Type := mkCanvas {
  width : Q;
  height : Q;
  bitmap : point -> Pixel;
  offsetWidth : Q;
  offsetHeight : Q;
  rectLeft : Q;
  rectTop : Q
}.

Definition sq (a : Q) : Q := a * a.

Definition dist2 (p q : point) : Q :=
  sq (fst p - fst q) + sq (snd p - snd q).

(** [v] lies in the interval from [a] to [b], whichever is the smaller,
    the upper end excluded. *)
Definition between (a b v : Q) : bool :=
  (Qle_bool a v && Qlt_bool v b) || (Qle_bool b v && Qlt_bool v a).

(** The rectangle [x, y, w, h] as a set of pixels: pixel [i] of a row is
    the interval from [i] to [i + 1], so a rectangle from [x] to [x + w]
    holds the points from [x] on and before [x + w]; its right and bottom
    edge are left out. *)
Definition inRect (x y w h : Q) (p : point) : bool :=
  between x (x + w) (fst p) && between y (y + h) (snd p).

(** The points of a [width] x [height] bitmap: pixel [i] of a row is the
    interval from [i] to [i + 1], its right end excluded. *)
Definition inBounds (cv : Canvas) (p : point) : bool :=
  Qle_bool 0 (fst p) && Qlt_bool (fst p) (width cv)
  && Qle_bool 0 (snd p) && Qlt_bool (snd p) (height cv).

(** What the surface shows at [p]: nothing outside the bitmap. *)
Definition pixelAt (cv : Canvas) (p : point) : Pixel :=
  if inBounds cv p then bitmap cv p else None.

Definition setBitmap (b : point -> Pixel) (cv : Canvas) : Canvas :=
  mkCanvas (width cv) (height cv) b
           (offsetWidth cv) (offsetHeight cv) (rectLeft cv) (rectTop cv).

(** Every pixel of [region] becomes [px]. *)
Definition paint (region : point -> bool) (px : Pixel) (cv : Canvas) : Canvas :=
  setBitmap (fun p => if region p then px else bitmap cv p) cv.

(** [ctx.clearRect(x, y, w, h)]: no effect when [w] or [h] is zero. *)
Definition clearRect (x y w h : Q) (cv : Canvas) : Canvas :=
  if Qeq_bool w 0 || Qeq_bool h 0 then cv
  else paint (inRect x y w h) None cv.

(** [ctx.drawImage(img, 0, 0)]: the image's painted pixels go over the
    bitmap. *)
Definition drawImage (img : Image) (cv : Canvas) : Canvas :=
  setBitmap (fun p => match imagePixels img p with
                      | Some c => Some c
                      | None => bitmap cv p
                      end) cv.

(** [canvas.toDataURL()]. *)
Definition toDataURL (cv : Canvas) : DataURL :=
  PngURL (mkImage (width cv) (height cv) (pixelAt cv)).

(** *** Strokes

    What [stroke()] paints, as the Canvas standard traces a path: the
    band of half-width [lineWidth / 2] along every line, a cap at both
    ends of every subpath as [lineCap] says, and a join where two lines
    meet.  The component never sets [lineJoin] or [miterLimit]: joins
    are mitered, with the limit 10.  Lengths are compared through their
    squares.  A pixel is painted when the stroke covers its centre. *)

(** The centre of the pixel that begins at [p]. *)
Definition centre (p : point) : point := (fst p + 1 / 2, snd p + 1 / 2).

Definition vec (a b : point) : point := (fst b - fst a, snd b - snd a).

Definition dot (u v : point) : Q := fst u * fst v + snd u * snd v.

Definition cross (u v : point) : Q := fst u * snd v - snd u * fst v.

Definition samePoint (a b : point) : bool :=
  Qeq_bool (fst a) (fst b) && Qeq_bool (snd a) (snd b).

(** The band along the line from [a] to [b]: the points whose foot on the
    line falls between [a] and [b] and which are within [hw] of the line. *)
Definition inBand (hw : Q) (a b p : point) : bool :=
  let d := vec a b in
  let v := vec a p in
  Qle_bool 0 (dot d v) && Qle_bool (dot d v) (dot d d)
  && Qle_bool (sq (cross d v)) (sq hw * dot d d).

(** The cap at the end [b] of the line from [a] to [b]: for ["round"] the
    half disc of radius [hw] beyond [b], for ["square"] the band carried
    on by [hw], for ["butt"] nothing. *)
Definition inCap (cap : string) (hw : Q) (a b p : point) : bool :=
  let d := vec a b in
  let v := vec b p in
  if String.eqb cap "round" then
    Qle_bool 0 (dot d v) && Qle_bool (dist2 p b) (sq hw)
  else if String.eqb cap "square" then
    Qle_bool 0 (dot d v) && Qle_bool (sq (dot d v)) (sq hw * dot d d)
    && Qle_bool (sq (cross d v)) (sq hw * dot d d)
  else false.

Definition miterLimit : Q := 10.

(** [sqrt a2 + sqrt b2 <= c], for [a2], [b2] and [c] that are not
    negative. *)
Definition rootSumLe (a2 b2 c : Q) : bool :=
  let r := sq c + a2 - b2 in
  Qle_bool a2 (sq c) && Qle_bool 0 r && Qle_bool (4 * sq c * a2) (sq r).

(** The join at [b] of the lines from [a] to [b] and from [b] to [c],
    which turn there.  The lines leave a wedge open on the outer side of
    the turn: the points beyond the end of the first line and before the
    start of the second.  The bevel is the triangle of [b] and the two
    outer corners of the bands; the miter carries the outer edges of the
    two bands on until they meet.  The miter is painted when the ratio of
    its length to [hw], which is [1 / sin (theta / 2)] for the angle
    [theta] between the lines, is not above [miterLimit]; otherwise the
    bevel only. *)
Definition inJoin (hw : Q) (a b c p : point) : bool :=
  let d1 := vec a b in
  let d2 := vec b c in
  let v := vec b p in
  let t := cross d1 d2 in
  if Qeq_bool t 0 then false
  else if Qle_bool 0 (dot d1 v) && Qle_bool (dot d2 v) 0 then
    if Qle_bool 0 (dot d1 d2)
       || Qle_bool (sq (dot d1 d2))
                   (sq (1 - 2 / sq miterLimit) * dot d1 d1 * dot d2 d2)
    then Qle_bool (sq (cross d1 v)) (sq hw * dot d1 d1)
         && Qle_bool (sq (cross d2 v)) (sq hw * dot d2 d2)
    else rootSumLe (dot d1 d1 * sq (dot d2 v) / sq t)
                   (dot d2 d2 * sq (dot d1 v) / sq t) hw
  else false.

(** The points of a subpath without its lines of length zero, which the
    standard prunes: of points that repeat, the first stays. *)
Fixpoint pruneFrom (a : point) (rest : list point) : list point :=
  match rest with
  | [] => [a]
  | b :: rest' =>
      if samePoint a b then pruneFrom a rest' else a :: pruneFrom b rest'
  end.

Definition prune (pts : list point) : list point :=
  match pts with
  | [] => []
  | a :: rest => pruneFrom a rest
  end.

Fixpoint bands (hw : Q) (pts : list point) (p : point) : bool :=
  match pts with
  | [] => false
  | a :: rest =>
      match rest with
      | b :: _ => inBand hw a b p || bands hw rest p
      | [] => false
      end
  end.

Fixpoint joins (hw : Q) (pts : list point) (p : point) : bool :=
  match pts with
  | [] => false
  | a :: rest =>
      match rest with
      | b :: c :: _ => inJoin hw a b c p || joins hw rest p
      | _ => false
      end
  end.

Definition caps (cap : string) (hw : Q) (pts : list point) (p : point) : bool :=
  match pts with
  | a :: b :: _ => inCap cap hw b a p
  | _ => false
  end
  || match rev pts with
     | b :: a :: _ => inCap cap hw a b p
     | _ => false
     end.

(** The stroke of the open subpath through [pts]; a subpath left with
    one point paints nothing. *)
Definition polylineCovers (cap : string) (hw : Q) (pts : list point)
    (p : point) : bool :=
  bands hw (prune pts) p || joins hw (prune pts) p || caps cap hw (prune pts) p.

(** [p] is within [hw] of the circle of centre [c] and squared radius
    [r2]: [|d - r| <= hw], written without the square roots.  The two
    ends of the full circle meet, and a round or butt cap there adds
    nothing to the ring.  A circle of radius zero is a single point and
    is pruned. *)
Definition nearCircle (hw : Q) (c : point) (r2 : Q) (p : point) : bool :=
  let m := dist2 p c + r2 - sq hw in
  negb (Qeq_bool r2 0)
  && (Qle_bool m 0 || Qle_bool (sq m) (4 * dist2 p c * r2)).

(** The pixels a stroke of half-width [hw] puts on a path; [cur] holds the
    points of the current subpath.  A [lineTo] on an empty path only sets
    the point.  The component calls [arc] right after [beginPath] only;
    the point a circle leaves the subpath at has no rational coordinate,
    and a [lineTo] that follows a circle starts a subpath here. *)
Fixpoint pathCovers (cap : string) (hw : Q) (cur : list point)
    (segs : list Seg) (p : point) : bool :=
  match segs with
  | [] => polylineCovers cap hw cur p
  | MoveTo a :: rest =>
      polylineCovers cap hw cur p || pathCovers cap hw [a] rest p
  | LineTo b :: rest => pathCovers cap hw (cur ++ [b]) rest p
  | Arc c r2 :: rest =>
      polylineCovers cap hw cur p || nearCircle hw c r2 p
      || pathCovers cap hw [] rest p
  end.

(** [ctx.stroke()]: strokes the current path, which stays. *)
Definition stroke (ctx : Context2D) (cv : Canvas) : Canvas :=
  paint (fun p => pathCovers (lineCap ctx) (lineWidth ctx / 2) []
                             (path ctx) (centre p))
        (Some (strokeStyle ctx)) cv.

(** [ctx.strokeRect(x, y, w, h)]: the frame of half-width [lineWidth / 2]
    around the outline, its corners mitered; nothing when both [w] and
    [h] are zero; when one of them is zero the outline is the line from
    [(x, y)] to [(x + w, y + h)] and back, and its band has no caps.  The
    current path is not touched. *)
Definition strokeRect (x y w h : Q) (ctx : Context2D) (cv : Canvas) : Canvas :=
  let hw := lineWidth ctx / 2 in
  let x0 := Qmin x (x + w) in
  let x1 := Qmax x (x + w) in
  let y0 := Qmin y (y + h) in
  let y1 := Qmax y (y + h) in
  if Qeq_bool w 0 && Qeq_bool h 0 then cv
  else if Qeq_bool w 0 || Qeq_bool h 0 then
    paint (fun p => inBand hw (x, y) (x + w, y + h) (centre p))
          (Some (strokeStyle ctx)) cv
  else paint (fun p =>
                let c := centre p in
                Qle_bool (x0 - hw) (fst c) && Qle_bool (fst c) (x1 + hw)
                && Qle_bool (y0 - hw) (snd c) && Qle_bool (snd c) (y1 + hw)
                && negb (Qlt_bool (x0 + hw) (fst c) && Qlt_bool (fst c) (x1 - hw)
                         && Qlt_bool (y0 + hw) (snd c) && Qlt_bool (snd c) (y1 - hw)))
             (Some (strokeStyle ctx)) cv.

Definition setStrokeStyle (c : string) (ctx : Context2D) : Context2D :=
  mkContext c (lineWidth ctx) (lineCap ctx) (path ctx).

(** [ctx.lineWidth = v]: zero and negative values are ignored. *)
Definition setLineWidth (v : Q) (ctx : Context2D) : Context2D :=
  if Qlt_bool 0 v then mkContext (strokeStyle ctx) v (lineCap ctx) (path ctx)
  else ctx.

Definition setLineCap (c : string) (ctx : Context2D) : Context2D :=
  mkContext (strokeStyle ctx) (lineWidth ctx) c (path ctx).

Definition setPath (segs : list Seg) (ctx : Context2D) : Context2D :=
  mkContext (strokeStyle ctx) (lineWidth ctx) (lineCap ctx) segs.

Definition beginPath (ctx : Context2D) : Context2D := setPath [] ctx.

Definition moveTo (x y : Q) (ctx : Context2D) : Context2D :=
  setPath (path ctx ++ [MoveTo (x, y)]) ctx.

Definition lineTo (x y : Q) (ctx : Context2D) : Context2D :=
  setPath (path ctx ++ [LineTo (x, y)]) ctx.

Definition arc (x y radius2 : Q) (ctx : Context2D) : Context2D :=
  setPath (path ctx ++ [Arc (x, y) radius2]) ctx.

(** A context as [getContext("2d")] hands it out after the bitmap was
    reset. *)
Definition defaultContext : Context2D := mkContext "#000000" 1 "butt" [].

(** [canvas.width = canvas.offsetWidth; canvas.height = canvas.offsetHeight]:
    assigning the size empties the bitmap. *)
Definition resize (cv : Canvas) : Canvas :=
  mkCanvas (offsetWidth cv) (offsetHeight cv) (fun _ => None)
           (offsetWidth cv) (offsetHeight cv) (rectLeft cv) (rectTop cv).

End Canvas2D.

(** ** The component's state *)

Module App.

Import Canvas2D.

(** [{ id, name, data }] *)
Record Layer : Type := mkLayer {
  id : nat;
  name : string;
  data : DataURL
}.

(** What [getEventPos] reads of an event: the client coordinates of a
    mouse event, or those of the [touches] and [changedTouches] of a touch
    event. *)
Inductive PointerEvent : Type :=
| MouseEvent (clientX clientY : Q)
| TouchEvent (touches changedTouches : list point).

(** An [Image] whose load is in flight, with what its [onload] closure
    holds: [loadLayer]'s closure only draws; [undo]'s and [redo]'s also hold
    the [layers] array and the [activeLayer] of the render they were
    created in. *)
Inductive Task : Type :=
| LoadLayer (src : DataURL)
| Restore (src : DataURL) (layers : list nat) (activeLayer : Z).

(** The [useRef] and [useState] cells of [DrawingApp], the layer objects,
    and the image loads in flight.  The component is mounted:
    [canvasRef.current] and [ctxRef.current] are not null. *)
Record State : Type := mkState {
  canvas : Canvas;
  ctx : Context2D;
  isDrawing : bool;
  tool : string;
  color : string;
  brushSize : Q;
  heap : list Layer;
  layers : list nat;
  activeLayer : Z;
  history : list DataURL;
  redoStack : list DataURL;
  activeButton : option string;
  startPos : option point;
  showMobileLayers : bool;
  pending : list Task
}.

Definition setCanvas (v : Canvas) (s : State) : State :=
  mkState v (ctx s) (isDrawing s) (tool s) (color s) (brushSize s) (heap s)
    (layers s) (activeLayer s) (history s) (redoStack s) (activeButton s)
    (startPos s) (showMobileLayers s) (pending s).

Definition setCtx (v : Context2D) (s : State) : State :=
  mkState (canvas s) v (isDrawing s) (tool s) (color s) (brushSize s) (heap s)
    (layers s) (activeLayer s) (history s) (redoStack s) (activeButton s)
    (startPos s) (showMobileLayers s) (pending s).

Definition setIsDrawing (v : bool) (s : State) : State :=
  mkState (canvas s) (ctx s) v (tool s) (color s) (brushSize s) (heap s)
    (layers s) (activeLayer s) (history s) (redoStack s) (activeButton s)
    (startPos s) (showMobileLayers s) (pending s).

Definition setTool (v : string) (s : State) : State :=
  mkState (canvas s) (ctx s) (isDrawing s) v (color s) (brushSize s) (heap s)
    (layers s) (activeLayer s) (history s) (redoStack s) (activeButton s)
    (startPos s) (showMobileLayers s) (pending s).

Definition setColor (v : string) (s : State) : State :=
  mkState (canvas s) (ctx s) (isDrawing s) (tool s) v (brushSize s) (heap s)
    (layers s) (activeLayer s) (history s) (redoStack s) (activeButton s)
    (startPos s) (showMobileLayers s) (pending s).

Definition setBrushSize (v : Q) (s : State) : State :=
  mkState (canvas s) (ctx s) (isDrawing s) (tool s) (color s) v (heap s)
    (layers s) (activeLayer s) (history s) (redoStack s) (activeButton s)
    (startPos s) (showMobileLayers s) (pending s).

Definition setHeap (v : list Layer) (s : State) : State :=
  mkState (canvas s) (ctx s) (isDrawing s) (tool s) (color s) (brushSize s) v
    (layers s) (activeLayer s) (history s) (redoStack s) (activeButton s)
    (startPos s) (showMobileLayers s) (pending s).

Definition setLayers (v : list nat) (s : State) : State :=
  mkState (canvas s) (ctx s) (isDrawing s) (tool s) (color s) (brushSize s)
    (heap s) v (activeLayer s) (history s) (redoStack s) (activeButton s)
    (startPos s) (showMobileLayers s) (pending s).

Definition setActiveLayer (v : Z) (s : State) : State :=
  mkState (canvas s) (ctx s) (isDrawing s) (tool s) (color s) (brushSize s)
    (heap s) (layers s) v (history s) (redoStack s) (activeButton s)
    (startPos s) (showMobileLayers s) (pending s).

Definition setHistory (v : list DataURL) (s : State) : State :=
  mkState (canvas s) (ctx s) (isDrawing s) (tool s) (color s) (brushSize s)
    (heap s) (layers s) (activeLayer s) v (redoStack s) (activeButton s)
    (startPos s) (showMobileLayers s) (pending s).

Definition setRedoStack (v : list DataURL) (s : State) : State :=
  mkState (canvas s) (ctx s) (isDrawing s) (tool s) (color s) (brushSize s)
    (heap s) (layers s) (activeLayer s) (history s) v (activeButton s)
    (startPos s) (showMobileLayers s) (pending s).

Definition setActiveButton (v : option string) (s : State) : State :=
  mkState (canvas s) (ctx s) (isDrawing s) (tool s) (color s) (brushSize s)
    (heap s) (layers s) (activeLayer s) (history s) (redoStack s) v
    (startPos s) (showMobileLayers s) (pending s).

Definition setStartPos (v : option point) (s : State) : State :=
  mkState (canvas s) (ctx s) (isDrawing s) (tool s) (color s) (brushSize s)
    (heap s) (layers s) (activeLayer s) (history s) (redoStack s)
    (activeButton s) v (showMobileLayers s) (pending s).

Definition setShowMobileLayers (v : bool) (s : State) : State :=
  mkState (canvas s) (ctx s) (isDrawing s) (tool s) (color s) (brushSize s)
    (heap s) (layers s) (activeLayer s) (history s) (redoStack s)
    (activeButton s) (startPos s) v (pending s).

Definition setPending (v : list Task) (s : State) : State :=
  mkState (canvas s) (ctx s) (isDrawing s) (tool s) (color s) (brushSize s)
    (heap s) (layers s) (activeLayer s) (history s) (redoStack s)
    (activeButton s) (startPos s) (showMobileLayers s) v.

(** How a handler, an effect or a callback ends: normally; by the
    [TypeError] of reading [.data] of [undefined], leaving the state the
    updates before the throw produce; or, when an effect throws, with the
    component unmounted. *)
Inductive Outcome : Type :=
| Done (s : State)
| TypeError (s : State)
| Unmounted.

(** [arr[i]] for a JS number [i] that is an integer: [undefined] outside
    the array. *)
Definition index {A : Type} (arr : list A) (i : Z) : option A :=
  if (i <? 0)%Z then None else arr !! Z.to_nat i.

(** [arr[i]] as a layer object: its reference and its current fields. *)
Definition objectAt (s : State) (arr : list nat) (i : Z) : option (nat * Layer) :=
  r ← index arr i; l ← heap s !! r; Some (r, l).

(** [obj.data = v] on the object behind reference [r]. *)
Definition writeData (r : nat) (v : DataURL) (h : list Layer) : list Layer :=
  alter (fun l => mkLayer (id l) (name l) v) r h.

(** [`${n}`] *)
Definition toString (n : nat) : string :=
  NilEmpty.string_of_uint (Nat.to_uint n).

Definition tools : list string := ["brush"; "rectangle"; "circle"; "eraser"].
Definition colors : list string :=
  ["#000000"; "#FF6363"; "#FFA600"; "#00876C"; "#3366FF"; "#CBAACB"].
Definition maxBrushSize : Q := 30.

(** ** Handlers *)

(** [loadLayer]: [layers[activeLayer].data] is read (and may throw) now;
    the drawing waits for the image. *)
Definition loadLayer (s : State) : Outcome :=
  match objectAt s (layers s) (activeLayer s) with
  | None => Unmounted
  | Some (_, l) => Done (setPending (pending s ++ [LoadLayer (data l)]) s)
  end.

(** [useEffect(..., [activeLayer])] *)
Definition effectActiveLayer (s : State) : Outcome :=
  loadLayer (setCtx (setLineCap "round" defaultContext)
              (setCanvas (resize (canvas s)) s)).

(** [useEffect(..., [color, brushSize])] *)
Definition effectStyle (s : State) : State :=
  setCtx (setLineWidth (brushSize s) (setStrokeStyle (color s) (ctx s))) s.

Definition getEventPos (e : option PointerEvent) (s : State) : point :=
  let rect := canvas s in
  match e with
  | Some (TouchEvent (t :: _) _) =>
      (fst t - rectLeft rect, snd t - rectTop rect)%Q
  | Some (TouchEvent [] (t :: _)) =>
      (fst t - rectLeft rect, snd t - rectTop rect)%Q
  | Some (MouseEvent clientX clientY) =>
      (clientX - rectLeft rect, clientY - rectTop rect)%Q
  | Some (TouchEvent [] []) | None =>
      match startPos s with
      | Some p => p
      | None => (0, 0)%Q
      end
  end.

Definition startDrawing (e : PointerEvent) (s : State) : State :=
  let '(offsetX, offsetY) := getEventPos (Some e) s in
  let c := setLineWidth (brushSize s) (setStrokeStyle (color s) (ctx s)) in
  let c := if String.eqb (tool s) "brush"
           then moveTo offsetX offsetY (beginPath c) else c in
  setIsDrawing true (setStartPos (Some (offsetX, offsetY)) (setCtx c s)).

Definition draw (e : PointerEvent) (s : State) : State :=
  match isDrawing s, startPos s with
  | true, Some _ =>
      let '(offsetX, offsetY) := getEventPos (Some e) s in
      let c := setLineWidth (brushSize s) (setStrokeStyle (color s) (ctx s)) in
      if String.eqb (tool s) "brush" then
        let c := lineTo offsetX offsetY c in
        setCanvas (stroke c (canvas s)) (setCtx c s)
      else if String.eqb (tool s) "eraser" then
        setCanvas (clearRect (offsetX - brushSize s / 2) (offsetY - brushSize s / 2)
                             (brushSize s) (brushSize s) (canvas s))
                  (setCtx c s)
      else setCtx c s
  | _, _ => s
  end.

(** The shape [endDrawing] draws for the rectangle and circle tools. *)
Definition drawShape (x y offsetX offsetY : Q) (s : State) : State :=
  if String.eqb (tool s) "rectangle" || String.eqb (tool s) "circle" then
    let c := beginPath (setLineWidth (brushSize s)
                          (setStrokeStyle (color s) (ctx s))) in
    if String.eqb (tool s) "rectangle" then
      setCanvas (strokeRect x y (offsetX - x) (offsetY - y) c (canvas s))
                (setCtx c s)
    else
      let radius2 := (sq (offsetX - x) + sq (offsetY - y))%Q in
      let c := arc x y radius2 c in
      setCanvas (stroke c (canvas s)) (setCtx c s)
  else s.

Definition endDrawing (e : option PointerEvent) (s : State) : Outcome :=
  match isDrawing s, startPos s with
  | true, Some (x, y) =>
      let '(offsetX, offsetY) :=
        match e with
        | Some ev => getEventPos (Some ev) s
        | None => (x, y)
        end in
      let s1 := drawShape x y offsetX offsetY s in
      match objectAt s1 (layers s1) (activeLayer s1) with
      | None => TypeError s1
      | Some (r, _) =>
          Done (setStartPos None (setIsDrawing false (setRedoStack []
                 (setHistory (history s1 ++ [toDataURL (canvas s1)])
                   (setLayers (layers s1)
                     (setHeap (writeData r (toDataURL (canvas s1)) (heap s1))
                        s1))))))
      end
  | _, _ => Done s
  end.

Definition handleToolChange (t : string) (s : State) : State := setTool t s.

Definition handleColorChange (c : string) (s : State) : State := setColor c s.

Definition handleBrushSizeChange (size : Q) (s : State) : State :=
  setBrushSize size s.

Definition addLayer (s : State) : State :=
  let newId := (length (layers s) + 1)%nat in
  let obj := mkLayer newId ("Layer " ++ toString newId) EmptyURL in
  setLayers (layers s ++ [length (heap s)]) (setHeap (heap s ++ [obj]) s).

Definition selectLayer (index : Z) (s : State) : State := setActiveLayer index s.

Definition undo (s : State) : Outcome :=
  if (length (history s) =? 0)%nat then Done s
  else
    let newHistory := take (length (history s) - 1) (history s) in
    let s1 := setHistory newHistory s in
    match objectAt s (layers s) (activeLayer s) with
    | None => TypeError s1
    | Some (_, l) =>
        Done (setPending
                (pending s ++ [Restore (orEmpty (last newHistory))
                                       (layers s) (activeLayer s)])
                (setRedoStack (data l :: redoStack s) s1))
    end.

Definition redo (s : State) : Outcome :=
  match redoStack s with
  | [] => Done s
  | next :: newRedoStack =>
      Done (setPending
              (pending s ++ [Restore next (layers s) (activeLayer s)])
              (setHistory (history s ++ [next])
                 (setRedoStack newRedoStack s)))
  end.

Definition clearCanvas (s : State) : Outcome :=
  let s1 := setCanvas (clearRect 0 0 (width (canvas s)) (height (canvas s))
                                 (canvas s)) s in
  match objectAt s1 (layers s1) (activeLayer s1) with
  | None => TypeError s1
  | Some (r, _) =>
      Done (setLayers (layers s1) (setHeap (writeData r EmptyURL (heap s1)) s1))
  end.

Definition handleButtonClick (buttonName : string) (s : State) : Outcome :=
  let s1 := setActiveButton (Some buttonName) s in
  if String.eqb buttonName "undo" then undo s1
  else if String.eqb buttonName "redo" then redo s1
  else if String.eqb buttonName "clear" then clearCanvas s1
  else Done (handleToolChange buttonName s1).

(** [img.onload]: what runs when the image of a task has loaded. *)
Definition onload (t : Task) (s : State) : Outcome :=
  let shown src :=
    setCanvas (drawImage (decode src)
                 (clearRect 0 0 (width (canvas s)) (height (canvas s))
                            (canvas s))) s in
  match t with
  | LoadLayer src => Done (shown src)
  | Restore src lys act =>
      let s1 := shown src in
      match objectAt s1 lys act with
      | None => TypeError s1
      | Some (r, _) =>
          Done (setLayers lys (setHeap (writeData r src (heap s1)) s1))
      end
  end.

Definition source (t : Task) : DataURL :=
  match t with
  | LoadLayer src => src
  | Restore src _ _ => src
  end.

(** The [load] event of the [i]-th image in flight.  When a load completes
    is the environment's choice: any image in flight whose source is an
    image may load at any time.  An image whose source is none (the empty
    string) gets [error] instead, for which the component sets no handler:
    its [onload] never runs, and nothing happens. *)
Definition imageLoaded (i : nat) (s : State) : Outcome :=
  match pending s !! i with
  | None => Done s
  | Some t =>
      if loads (source t) then onload t (setPending (delete i (pending s)) s)
      else Done s
  end.

(** ** Events and renders *)

Inductive Command : Type :=
| Click (buttonName : string)
| PickColor (c : string)
| SlideBrushSize (size : Q)
| PointerDown (e : PointerEvent)
| PointerMove (e : PointerEvent)
| PointerUp (e : PointerEvent)
| ClickAddLayer
| ClickLayer (index : Z)
| ToggleMobileLayers (v : bool)
| ImageLoaded (i : nat).

Definition handle (c : Command) (s : State) : Outcome :=
  match c with
  | Click b => handleButtonClick b s
  | PickColor c => Done (handleColorChange c s)
  | SlideBrushSize n => Done (handleBrushSizeChange n s)
  | PointerDown e => Done (startDrawing e s)
  | PointerMove e => Done (draw e s)
  | PointerUp e => endDrawing (Some e) s
  | ClickAddLayer => Done (addLayer s)
  | ClickLayer i => Done (selectLayer i s)
  | ToggleMobileLayers v => Done (setShowMobileLayers v s)
  | ImageLoaded i => imageLoaded i s
  end.

(** The render after a handler: the effects whose dependencies changed
    run, in the order they are declared. *)
Definition render (before after : State) : Outcome :=
  let restyle s :=
    if String.eqb (color before) (color after)
       && Qeq_bool (brushSize before) (brushSize after)
    then s else effectStyle s in
  if (activeLayer before =? activeLayer after)%Z then Done (restyle after)
  else
    match effectActiveLayer after with
    | Done s => Done (restyle s)
    | TypeError s => TypeError s
    | Unmounted => Unmounted
    end.

(** One event: the handler, then the render.  A handler that throws has
    changed none of the dependencies. *)
Definition exec (c : Command) (s : State) : Outcome :=
  match handle c s with
  | Done s' => render s s'
  | TypeError s' => TypeError s'
  | Unmounted => Unmounted
  end.

(** The state an outcome leaves, if the component is still there. *)
Definition after (o : Outcome) : option State :=
  match o with
  | Done s => Some s
  | TypeError s => Some s
  | Unmounted => None
  end.

(** [k] after [o], as long as nothing was thrown. *)
Definition andThen (o : Outcome) (k : State -> Outcome) : Outcome :=
  match o with
  | Done s => k s
  | TypeError s => TypeError s
  | Unmounted => Unmounted
  end.

Fixpoint run (cs : list Command) (s : State) : Outcome :=
  match cs with
  | [] => Done s
  | c :: rest => andThen (exec c s) (run rest)
  end.

(** The [useState] initial values, around a canvas element of the given
    layout box that has its default 300 x 150 bitmap. *)
Definition initialState (offsetW offsetH left top : Q) : State :=
  mkState (mkCanvas 300 150 (fun _ => None) offsetW offsetH left top)
          defaultContext
          false "brush" "#000000" 5
          [mkLayer 1 "Layer 1" EmptyURL] [0%nat] 0
          [] [] None None false [].

(** The first render: both effects run. *)
Definition mount (s : State) : Outcome :=
  match effectActiveLayer s with
  | Done s' => Done (effectStyle s')
  | o => o
  end.

Definition mounted (offsetW offsetH left top : Q) : State :=
  match mount (initialState offsetW offsetH left top) with
  | Done s => s
  | _ => initialState offsetW offsetH left top
  end.

(** The states the component can be in. *)
Inductive reachable (offsetW offsetH left top : Q) : State -> Prop :=
| reachable_mounted : reachable offsetW offsetH left top
                                (mounted offsetW offsetH left top)
| reachable_exec s c s' :
    reachable offsetW offsetH left top s ->
    after (exec c s) = Some s' ->
    reachable offsetW offsetH left top s'.

End App.

(** ** The earlier version of the component (src/unnamed/part_000)

    Mouse only, positions read from [e.nativeEvent.offsetX / offsetY]; no
    anchor and no shapes; one effect for colour, size and active layer.
    [undo], [redo], [clearCanvas], [addLayer], [selectLayer], [loadLayer]
    and [handleButtonClick] are the ones of the current version, word for
    word, and are shared; the fields [startPos] and [showMobileLayers] of
    the state are not used. *)

Module Legacy.

Import Canvas2D App.

(** [useEffect(..., [color, brushSize, activeLayer])] *)
Definition effect (s : State) : Outcome :=
  loadLayer
    (setCtx (setLineWidth (brushSize s)
               (setStrokeStyle (color s)
                  (setLineCap "round" defaultContext)))
            (setCanvas (resize (canvas s)) s)).

Definition startDrawing (offsetX offsetY : Q) (s : State) : State :=
  setIsDrawing true (setCtx (moveTo offsetX offsetY (beginPath (ctx s))) s).

Definition draw (offsetX offsetY : Q) (s : State) : State :=
  if isDrawing s then
    if String.eqb (tool s) "brush" then
      let c := lineTo offsetX offsetY (ctx s) in
      setCanvas (stroke c (canvas s)) (setCtx c s)
    else if String.eqb (tool s) "eraser" then
      setCanvas (clearRect (offsetX - brushSize s / 2) (offsetY - brushSize s / 2)
                           (brushSize s) (brushSize s) (canvas s)) s
    else s
  else s.

Definition endDrawing (s : State) : Outcome :=
  if isDrawing s then
    match objectAt s (layers s) (activeLayer s) with
    | None => TypeError s
    | Some (r, _) =>
        Done (setIsDrawing false (setRedoStack []
               (setHistory (history s ++ [toDataURL (canvas s)])
                 (setLayers (layers s)
                   (setHeap (writeData r (toDataURL (canvas s)) (heap s)) s)))))
    end
  else Done s.

Inductive Command : Type :=
| Click (buttonName : string)
| PickColor (c : string)
| SlideBrushSize (size : Q)
| MouseDown (offsetX offsetY : Q)
| MouseMove (offsetX offsetY : Q)
| MouseUp
| ClickAddLayer
| ClickLayer (index : Z)
| ImageLoaded (i : nat).

Definition handle (c : Command) (s : State) : Outcome :=
  match c with
  | Click b => handleButtonClick b s
  | PickColor c => Done (handleColorChange c s)
  | SlideBrushSize n => Done (handleBrushSizeChange n s)
  | MouseDown x y => Done (startDrawing x y s)
  | MouseMove x y => Done (draw x y s)
  | MouseUp => endDrawing s
  | ClickAddLayer => Done (addLayer s)
  | ClickLayer i => Done (selectLayer i s)
  | ImageLoaded i => imageLoaded i s
  end.

(** The render after a handler: the one effect runs when the colour, the
    size or the active layer changed. *)
Definition render (before after : State) : Outcome :=
  if String.eqb (color before) (color after)
     && Qeq_bool (brushSize before) (brushSize after)
     && (activeLayer before =? activeLayer after)%Z
  then Done after
  else effect after.

Definition exec (c : Command) (s : State) : Outcome :=
  match handle c s with
  | Done s' => render s s'
  | TypeError s' => TypeError s'
  | Unmounted => Unmounted
  end.

Fixpoint run (cs : list Command) (s : State) : Outcome :=
  match cs with
  | [] => Done s
  | c :: rest => andThen (exec c s) (run rest)
  end.

End Legacy.

(** ** Scenarios *)

Module Scenario.

Import Canvas2D App.

(** A handler followed by the load of the image it put in flight (the
    last one of [pending], if the handler queued one and its source is an
    image). *)
Definition completed (op : State -> Outcome) (s : State) : Outcome :=
  andThen (op s) (imageLoaded (length (pending s))).

(** [op] called [n] times in a row. *)
Fixpoint times (n : nat) (op : State -> Outcome) (s : State) : Outcome :=
  match n with
  | O => Done s
  | S n' => andThen (op s) (times n' op)
  end.

(** One gesture: the tool button, colour and size chosen before it, the
    press, the moves and the release. *)
Record Gesture : Type := mkGesture {
  toolButton : nat;
  colorButton : nat;
  size : Q;
  press : PointerEvent;
  moves : list PointerEvent;
  release : PointerEvent
}.

Definition gesture (g : Gesture) : list Command :=
  [Click (nth (toolButton g) tools "brush");
   PickColor (nth (colorButton g) colors "#000000");
   SlideBrushSize (size g);
   PointerDown (press g)]
  ++ map PointerMove (moves g)
  ++ [PointerUp (release g)].

Definition gestures (gs : list Gesture) : list Command :=
  concat (map gesture gs).

(** The data of the active layer, [layers[activeLayer].data]. *)
Definition activeData (s : State) : option DataURL :=
  '(_, l) ← objectAt s (layers s) (activeLayer s); Some (data l).

(** A 300 x 150 canvas at the origin of the page. *)
Definition fresh : State := mounted 300 150 0 0.

(** The state an outcome leaves; an unmounted component has none, and
    [fresh] stands for it. *)
Definition outcomeState (o : Outcome) : State :=
  match o with
  | Done s => s
  | TypeError s => s
  | Unmounted => fresh
  end.

(** Two strokes: a horizontal brush line, then a rectangle outline. *)
Definition line : Gesture :=
  mkGesture 0 0 5 (MouseEvent 10 10) [MouseEvent 50 10] (MouseEvent 50 10).

Definition box : Gesture :=
  mkGesture 1 0 5 (MouseEvent 100 40) [MouseEvent 140 90] (MouseEvent 140 90).

Definition afterLine : State := outcomeState (run (gesture line) fresh).

Definition afterLineAndBox : State :=
  outcomeState (run (gestures [line; box]) fresh).

(** The second stroke undone, and then the first. *)
Definition undoneOnce : State := outcomeState (completed undo afterLineAndBox).

Definition undoneTwice : State := outcomeState (completed undo undoneOnce).

(** A press after one undo. *)
Definition pressedAfterUndo : State := startDrawing (MouseEvent 20 20) undoneOnce.



(** The rectangle tool pressed on the fresh canvas at the origin. *)
Definition rectanglePressed : State :=
  startDrawing (MouseEvent 0 0) (outcomeState (exec (Click "rectangle") fresh)).

(** After the two strokes: undo is clicked, a layer is added while the
    image of the restore (the snapshot of the first stroke) is still
    loading, and then the image loads.  Image 0 in flight is the one
    [loadLayer] asked for at mount with the empty string, which never
    loads. *)
Definition addedWhileRestoring : State :=
  outcomeState (run [Click "undo"; ClickAddLayer] afterLineAndBox).

Definition restoredAfterAdding : State :=
  outcomeState (run [Click "undo"; ClickAddLayer; ImageLoaded 1]
                    afterLineAndBox).

Definition isDone (o : Outcome) : bool :=
  match o with
  | Done _ => true
  | _ => false
  end.

(** The brush pressed on the fresh canvas. *)
Definition brushPressed : State := startDrawing (MouseEvent 10 10) fresh.

(** Two strokes; undo; a layer added and selected while the image of the
    restore is loading; then that image loads. *)
Definition raceTrace : list Command :=
  gestures [line; box]
  ++ [Click "undo"; ClickAddLayer; ClickLayer 1; ImageLoaded 1].


(** The first stroke, undone: the image of the restore has the empty
    string for source. *)
Definition lineUndone : State := outcomeState (completed undo afterLine).

(** Two strokes, and the canvas cleared. *)
Definition cleared : State :=
  outcomeState (exec (Click "clear") afterLineAndBox).

Definition dangling : State := outcomeState (run raceTrace fresh).

End Scenario.

(** ** Predicates on states *)

Module Spec.

Import Canvas2D App.

(** The fields a drawing step cannot reach. *)
Definition sameStore (s s' : State) : Prop :=
  heap s' = heap s /\ layers s' = layers s /\ activeLayer s' = activeLayer s
  /\ history s' = history s /\ redoStack s' = redoStack s
  /\ pending s' = pending s.

(** Choosing a tool, a colour or a size touches neither the layers, the
    stacks, the canvas nor a gesture in progress. *)
Definition configures (c : Command) : Prop :=
  (exists k, c = Click (nth k tools "brush"))
  \/ (exists v, c = PickColor v) \/ (exists n, c = SlideBrushSize n).

(** The state between gestures: the active index names the layer object
    [r], whose data is the last entry of the Undo Stack (the empty string
    if there is none), and the surface shows that entry. *)
Definition Quiet (r : nat) (s : State) : Prop :=
  (exists l, objectAt s (layers s) (activeLayer s) = Some (r, l)
             /\ data l = orEmpty (last (history s)))
  /\ forall p, pixelAt (canvas s) p
               = if inBounds (canvas s) p
                 then imagePixels (decode (orEmpty (last (history s)))) p
                 else None.

(** [cv'] has the bitmap size and the layout box of [cv]. *)
Definition sameFrame (cv cv' : Canvas) : Prop :=
  width cv' = width cv /\ height cv' = height cv
  /\ offsetWidth cv' = offsetWidth cv /\ offsetHeight cv' = offsetHeight cv.

(** The bitmap has the size of the layout box, [ow] x [oh]. *)
Definition Sized (ow oh : Q) (s : State) : Prop :=
  width (canvas s) = ow /\ height (canvas s) = oh
  /\ offsetWidth (canvas s) = ow /\ offsetHeight (canvas s) = oh.

(** The layer objects behind [arr] are numbered from 1 in the order of the
    array, and named after their numbers. *)
Definition numbered (h : list Layer) (arr : list nat) : Prop :=
  forall (i r : nat), arr !! i = Some r ->
    exists l, h !! r = Some l /\ id l = S i
              /\ name l = "Layer " ++ toString (S i).

(** [layers] is numbered, and so is every array a restore in flight holds. *)
Definition layersNumbered (s : State) : Prop :=
  numbered (heap s) (layers s)
  /\ forall src arr a, Restore src arr a ∈ pending s -> numbered (heap s) arr.

(** Every object of [h] is in [h'] under the same reference, with the same
    [id] and [name]. *)
Definition keepsIds (h h' : list Layer) : Prop :=
  forall (r : nat) (l : Layer), h !! r = Some l ->
    exists l', h' !! r = Some l' /\ id l' = id l /\ name l' = name l.

(** Where the arrays of [s'] come from: [layers] is the one of [s], or
    the one a restore in flight in [s] holds, or the one of [s] with one
    reference appended; a restore in flight in [s'] was in flight in [s]
    or holds the [layers] of [s]. *)
Definition layersFrom (s s' : State) : Prop :=
  (layers s' = layers s
   \/ (exists src a, Restore src (layers s') a ∈ pending s)
   \/ (exists r, layers s' = (layers s ++ [r])%list))
  /\ forall src arr a, Restore src arr a ∈ pending s' ->
       Restore src arr a ∈ pending s \/ arr = layers s.

(** [layers], and every array a restore in flight holds, starts with the
    object created at mount. *)
Definition rooted (s : State) : Prop :=
  layers s !! 0%nat = Some 0%nat
  /\ forall src arr a, Restore src arr a ∈ pending s ->
       arr !! 0%nat = Some 0%nat.

(** What the page lets the user do in state [s]: the buttons are the
    tools and undo, redo, clear; the swatches are [colors]; the slider
    runs from 1 to [maxBrushSize]; the layer panel lists the positions of
    [layers]; an image that loads is one in flight whose source is an
    image. *)
Definition offered (s : State) (c : Command) : bool :=
  match c with
  | Click b => existsb (String.eqb b) (tools ++ ["undo"; "redo"; "clear"])
  | PickColor v => existsb (String.eqb v) colors
  | SlideBrushSize n => Qle_bool 1 n && Qle_bool n maxBrushSize
  | ClickLayer i => (0 <=? i)%Z && (i <? Z.of_nat (length (layers s)))%Z
  | ImageLoaded i =>
      match pending s !! i with
      | Some t => loads (source t)
      | None => false
      end
  | PointerDown _ | PointerMove _ | PointerUp _ => true
  | ClickAddLayer | ToggleMobileLayers _ => true
  end.

(** The states the page can reach. *)
Inductive reachableUI (offsetW offsetH left top : Q) : State -> Prop :=
| reachableUI_mounted : reachableUI offsetW offsetH left top
                                    (mounted offsetW offsetH left top)
| reachableUI_exec s c s' :
    reachableUI offsetW offsetH left top s ->
    offered s c = true ->
    after (exec c s) = Some s' ->
    reachableUI offsetW offsetH left top s'.

(** [cs] run from [s]: the state it ends in, if the page offers each
    command when its turn comes and none throws. *)
Fixpoint runOffered (cs : list Command) (s : State) : option State :=
  match cs with
  | [] => Some s
  | c :: rest =>
      if offered s c then
        match exec c s with
        | Done s' => runOffered rest s'
        | _ => None
        end
      else None
  end.

End Spec.

Import Canvas2D App Scenario Spec.

(** Case analysis on every comparison of the goal, each turned into the
    order fact it decides. *)
Ltac qcase :=
  match goal with
  | |- context [Qle_bool ?a ?b] =>
      let H := fresh "Hc" in
      destruct (Qle_bool a b) eqn:H;
      [apply Qle_bool_iff in H
      |apply not_true_iff_false in H; rewrite Qle_bool_iff in H;
       apply Qnot_le_lt in H]
  | |- context [Qeq_bool ?a ?b] =>
      let H := fresh "Hc" in
      destruct (Qeq_bool a b) eqn:H;
      [apply Qeq_bool_iff in H | apply Qeq_bool_neq in H]
  end.

Ltac qsolve :=
  unfold inBounds, inRect, between, Qlt_bool; simpl;
  repeat (qcase; simpl);
  try reflexivity; try discriminate;
  try (intros; exfalso; unfold Qdiv in *;
       change (/ 2)%Q with (1 # 2)%Q in *; lra).

(** Destructs what [H : after (...) = Some s'] branches on, then reads the
    fields of [s'] off the branch taken. *)
Ltac branches H :=
  repeat match type of H with
  | context [match ?x with _ => _ end] => destruct x eqn:?
  end;
  try discriminate H; injection H as <-.

Example fresh_state :
  history fresh = [] /\ redoStack fresh = [] /\ activeLayer fresh = 0%Z
  /\ pending fresh = [LoadLayer EmptyURL] /\ lineCap (ctx fresh) = "round".
Proof. repeat split. Qed.

Example line_drawn :
  pixelAt (canvas afterLine) (30, 10)%Q = Some "#000000"
  /\ pixelAt (canvas afterLine) (30, 20)%Q = None
  /\ length (history afterLine) = 1%nat
  /\ isDrawing afterLine = false.
Proof. vm_compute. repeat split. Qed.

(** One brush stroke, undone and redone.  The image [undo] creates has
    the empty string for source and never loads: the stroke stays on the
    surface while the Undo Stack is empty.  The image of [redo] loads. *)
Example stroke_undone_redone :
  let redone := outcomeState (completed redo lineUndone) in
  pixelAt (canvas lineUndone) (30, 10)%Q = Some "#000000"
  /\ length (history lineUndone) = 0%nat
  /\ pixelAt (canvas redone) (30, 10)%Q = Some "#000000"
  /\ length (history redone) = 1%nat.
Proof.
  cbv zeta. do 3 (split; [vm_compute; reflexivity|]). vm_compute. reflexivity.
Qed.

(** Of two strokes the second is undone: the surface shows the first. *)
Example second_stroke_undone :
  pixelAt (canvas undoneOnce) (120, 40)%Q = None
  /\ pixelAt (canvas undoneOnce) (30, 10)%Q = Some "#000000"
  /\ length (history undoneOnce) = 1%nat.
Proof. do 2 (split; [vm_compute; reflexivity|]). vm_compute. reflexivity. Qed.

(** A corner of a stroke is mitered: the lines from [(10, 30)] to
    [(50, 30)] to [(50, 80)] with width 30 paint the corner up to
    [(65, 15)], that is the pixels up to column 64 from row 15 on.  A line
    of length zero paints nothing, caps or not. *)
Example corner_mitered :
  let corner :=
    mkContext "#000000" 30 "round"
              [MoveTo (10, 30); LineTo (50, 30); LineTo (50, 80)]%Q in
  let dot :=
    mkContext "#000000" 30 "round" [MoveTo (50, 50); LineTo (50, 50)]%Q in
  pixelAt (stroke corner (canvas fresh)) (62, 18)%Q = Some "#000000"
  /\ pixelAt (stroke corner (canvas fresh)) (64, 15)%Q = Some "#000000"
  /\ pixelAt (stroke corner (canvas fresh)) (65, 15)%Q = None
  /\ pixelAt (stroke corner (canvas fresh)) (64, 14)%Q = None
  /\ pixelAt (stroke corner (canvas fresh)) (30, 40)%Q = Some "#000000"
  /\ pixelAt (stroke dot (canvas fresh)) (50, 50)%Q = None.
Proof. vm_compute. repeat split. Qed.

Example two_layers_added :
  let s := outcomeState (run [ClickAddLayer; ClickAddLayer] fresh) in
  length (layers s) = 3%nat /\ activeLayer s = 0%Z
  /\ (name <$> heap s) = ["Layer 1"; "Layer 2"; "Layer 3"]
  /\ (id <$> heap s) = [1; 2; 3]%nat.
Proof.
  cbv zeta. do 3 (split; [vm_compute; reflexivity|]). vm_compute. reflexivity.
Qed.

Example rectangle_committed :
  let s := outcomeState
             (run [Click "rectangle"; PointerDown (MouseEvent 0 0);
                   PointerMove (MouseEvent 100 50);
                   PointerUp (MouseEvent 100 50)] fresh) in
  pixelAt (canvas s) (100, 25)%Q = Some "#000000"
  /\ pixelAt (canvas s) (50, 25)%Q = None
  /\ length (history s) = 1%nat.
Proof.
  cbv zeta. do 2 (split; [vm_compute; reflexivity|]). vm_compute. reflexivity.
Qed.

Example box_drawn :
  pixelAt (canvas afterLineAndBox) (120, 40)%Q = Some "#000000"
  /\ pixelAt (canvas afterLineAndBox) (120, 60)%Q = None
  /\ pixelAt (canvas afterLineAndBox) (30, 10)%Q = Some "#000000"
  /\ length (history afterLineAndBox) = 2%nat.
Proof. vm_compute. repeat split. Qed.

(** ** Facts about the canvas *)


Section RestoreFacts.

Local Open Scope Q_scope.

Lemma inBounds_setBitmap (b : point -> Pixel) (cv : Canvas) (p : point) :
  inBounds (setBitmap b cv) p = inBounds cv p.
Proof. reflexivity. Qed.

Lemma width_clearRect (x y w h : Q) (cv : Canvas) :
  width (clearRect x y w h cv) = width cv
  /\ height (clearRect x y w h cv) = height cv.
Proof. unfold clearRect. destruct (_ || _); split; reflexivity. Qed.

Lemma inBounds_clearRect (x y w h : Q) (cv : Canvas) (p : point) :
  inBounds (clearRect x y w h cv) p = inBounds cv p.
Proof. unfold clearRect. destruct (_ || _); reflexivity. Qed.

(** [clearRect(0, 0, canvas.width, canvas.height)] leaves nothing to see. *)
Lemma pixelAt_clear_all (cv : Canvas) (p : point) :
  pixelAt (clearRect 0 0 (width cv) (height cv) cv) p = None.
Proof.
  unfold pixelAt. rewrite inBounds_clearRect.
  destruct (inBounds cv p) eqn:Hb; [|reflexivity].
  unfold clearRect, paint, setBitmap. destruct p as [px py].
  revert Hb. unfold inBounds. destruct cv as [W H b ow oh l t].
  cbn [width height bitmap]. qsolve.
Qed.

(** After [clearRect] of the whole bitmap and [drawImage(img, 0, 0)], the
    surface shows the image, cut to the bitmap. *)
Lemma pixelAt_restore (img : Image) (cv : Canvas) (p : point) :
  pixelAt (drawImage img (clearRect 0 0 (width cv) (height cv) cv)) p
  = if inBounds cv p then imagePixels img p else None.
Proof.
  pose proof (pixelAt_clear_all cv p) as Hclear.
  unfold pixelAt in *. unfold drawImage. rewrite inBounds_setBitmap.
  rewrite inBounds_clearRect in *.
  destruct (inBounds cv p); [|reflexivity].
  simpl. rewrite Hclear. destruct (imagePixels img p); reflexivity.
Qed.

(** A canvas that has a pixel gives a snapshot that loads. *)
Lemma inBounds_loads (cv : Canvas) (p : point) :
  inBounds cv p = true -> loads (toDataURL cv) = true.
Proof.
  unfold inBounds, loads, toDataURL, Qlt_bool.
  cbn [naturalWidth naturalHeight]. intros H.
  apply andb_true_iff in H as [H Hy2]. apply andb_true_iff in H as [H Hy1].
  apply andb_true_iff in H as [Hx1 Hx2].
  apply Qle_bool_iff in Hx1, Hy1.
  apply negb_true_iff, not_true_iff_false in Hx2, Hy2.
  rewrite Qle_bool_iff in Hx2, Hy2.
  apply andb_true_iff; split; apply negb_true_iff, not_true_iff_false;
    rewrite Qle_bool_iff; lra.
Qed.

Lemma sized_loads (cv : Canvas) :
  0 < width cv -> 0 < height cv -> loads (toDataURL cv) = true.
Proof.
  intros Hw Hh. unfold loads, toDataURL, Qlt_bool.
  cbn [naturalWidth naturalHeight].
  apply andb_true_iff; split; apply negb_true_iff, not_true_iff_false;
    rewrite Qle_bool_iff; lra.
Qed.

Lemma decode_toDataURL (cv : Canvas) :
  loads (toDataURL cv) = true ->
  decode (toDataURL cv) = mkImage (width cv) (height cv) (pixelAt cv).
Proof.
  intros H. unfold decode. unfold toDataURL in *. cbv beta iota.
  rewrite H. reflexivity.
Qed.

Lemma decode_not_loads (src : DataURL) (p : point) :
  loads src = false -> imagePixels (decode src) p = None.
Proof.
  intros H. destruct src as [|img]; [reflexivity|].
  unfold decode. rewrite H. reflexivity.
Qed.

Lemma pixelAt_toDataURL (cv : Canvas) (p : point) :
  (if inBounds cv p then imagePixels (decode (toDataURL cv)) p else None)
  = pixelAt cv p.
Proof.
  destruct (inBounds cv p) eqn:Hb.
  - rewrite (decode_toDataURL cv (inBounds_loads cv p Hb)). reflexivity.
  - unfold pixelAt. rewrite Hb. reflexivity.
Qed.

End RestoreFacts.

(** ** What the handlers leave alone *)

Lemma objectAt_heap (s1 s2 : State) (arr : list nat) (i : Z) :
  heap s1 = heap s2 -> objectAt s1 arr i = objectAt s2 arr i.
Proof. intros H. unfold objectAt. rewrite H. reflexivity. Qed.


Lemma sameStore_refl (s : State) : sameStore s s.
Proof. repeat split. Qed.

Lemma sameStore_trans (s1 s2 s3 : State) :
  sameStore s1 s2 -> sameStore s2 s3 -> sameStore s1 s3.
Proof.
  unfold sameStore. intros (?&?&?&?&?&?) (?&?&?&?&?&?).
  repeat split; congruence.
Qed.

Lemma drawShape_sameStore (x y ox oy : Q) (s : State) :
  sameStore s (drawShape x y ox oy s).
Proof.
  unfold drawShape.
  destruct (_ || _); [destruct (String.eqb (tool s) "rectangle")|];
    repeat split.
Qed.

Lemma drawShape_gesture (x y ox oy : Q) (s : State) :
  isDrawing (drawShape x y ox oy s) = isDrawing s
  /\ startPos (drawShape x y ox oy s) = startPos s.
Proof.
  unfold drawShape.
  destruct (_ || _); [destruct (String.eqb (tool s) "rectangle")|];
    split; reflexivity.
Qed.

Lemma objectAt_sameStore (s s' : State) :
  sameStore s s' ->
  objectAt s' (layers s') (activeLayer s') = objectAt s (layers s) (activeLayer s).
Proof.
  intros (Hh & Hl & Ha & _). rewrite Hl, Ha. apply objectAt_heap, Hh.
Qed.

(** What a committing [endDrawing] returns. *)
Lemma endDrawing_commits (e : option PointerEvent) (s : State) (x y : Q)
    (r : nat) (l : Layer) :
  isDrawing s = true -> startPos s = Some (x, y) ->
  objectAt s (layers s) (activeLayer s) = Some (r, l) ->
  exists ox oy,
    let s1 := drawShape x y ox oy s in
    endDrawing e s =
      Done (setStartPos None (setIsDrawing false (setRedoStack []
             (setHistory (history s ++ [toDataURL (canvas s1)])
               (setLayers (layers s)
                 (setHeap (writeData r (toDataURL (canvas s1)) (heap s))
                    s1)))))).
Proof.
  intros Hd Hp Ho. unfold endDrawing. rewrite Hd, Hp.
  destruct (match e with Some ev => getEventPos (Some ev) s | None => (x, y) end)
    as [ox oy].
  exists ox, oy. cbv zeta.
  pose proof (drawShape_sameStore x y ox oy s) as Hs.
  rewrite (objectAt_sameStore _ _ Hs), Ho.
  destruct Hs as (Hh & Hl & Ha & Hhi & _). rewrite Hh, Hl, Hhi. reflexivity.
Qed.

Lemma objectAt_lookup (s : State) (arr : list nat) (i : Z) (r : nat)
    (l : Layer) :
  objectAt s arr i = Some (r, l) -> index arr i = Some r /\ heap s !! r = Some l.
Proof.
  unfold objectAt. intros H.
  destruct (index arr i) as [r1|]; [|discriminate]. simpl in H.
  destruct (heap s !! r1) eqn:E; [|discriminate]. simpl in H.
  injection H as -> ->. split; [reflexivity | exact E].
Qed.

(** The active layer's data, read through the reference that named the
    active layer before. *)
Lemma activeData_lookup (s s' : State) (r : nat) (l l' : Layer) :
  objectAt s (layers s) (activeLayer s) = Some (r, l) ->
  layers s' = layers s -> activeLayer s' = activeLayer s ->
  heap s' !! r = Some l' ->
  activeData s' = Some (data l').
Proof.
  intros Ho Hl Ha Hr. apply objectAt_lookup in Ho as [Hi _].
  unfold activeData, objectAt. rewrite Hl, Ha, Hi. simpl. rewrite Hr.
  reflexivity.
Qed.

(** ** Claims *)

(** C8. With an empty Undo Stack [undo()] returns the state it was given,
    and with an empty Redo Stack so does [redo()]: canvas, layers, both
    stacks and everything else are unchanged. *)
Theorem empty_stack_noop (s : State) :
  (history s = [] -> undo s = Done s)
  /\ (redoStack s = [] -> redo s = Done s).
Proof.
  split; intros H.
  - unfold undo. rewrite H. reflexivity.
  - unfold redo. rewrite H. reflexivity.
Qed.

Lemma empty_stack_noop_witness :
  undo fresh = Done fresh /\ redo fresh = Done fresh.
Proof.
  destruct (empty_stack_noop fresh) as [Hu Hr].
  split; [apply Hu | apply Hr]; reflexivity.
Defined.

(** C5. A gesture that commits (a press is pending and the active index
    names a layer) leaves the Redo Stack empty, whatever was in it, so the
    [redo()] that follows returns the state unchanged. *)
Theorem commit_clears_redo (e : option PointerEvent) (s : State) (p : point)
    (r : nat) (l : Layer) :
  isDrawing s = true -> startPos s = Some p ->
  objectAt s (layers s) (activeLayer s) = Some (r, l) ->
  exists s', endDrawing e s = Done s'
             /\ redoStack s' = [] /\ redo s' = Done s'.
Proof.
  intros Hd Hp Ho. destruct p as [x y].
  destruct (endDrawing_commits e s x y r l Hd Hp Ho) as (ox & oy & He).
  cbv zeta in He. eexists. split; [exact He|]. split; reflexivity.
Qed.

Lemma commit_clears_redo_witness :
  exists s', endDrawing (Some (MouseEvent 60 60)) pressedAfterUndo = Done s'
             /\ redoStack s' = [] /\ redo s' = Done s'.
Proof.
  assert (Hp : match startPos pressedAfterUndo with
               | Some _ => true | None => false end = true)
    by (vm_compute; reflexivity).
  assert (Ho : match objectAt pressedAfterUndo (layers pressedAfterUndo)
                       (activeLayer pressedAfterUndo) with
               | Some _ => true | None => false end = true)
    by (vm_compute; reflexivity).
  destruct (startPos pressedAfterUndo) as [p|] eqn:Ep; [|discriminate Hp].
  destruct (objectAt pressedAfterUndo (layers pressedAfterUndo)
              (activeLayer pressedAfterUndo)) as [[r l]|] eqn:Eo;
    [|discriminate Ho].
  apply (commit_clears_redo _ pressedAfterUndo p r l);
    [vm_compute; reflexivity | exact Ep | exact Eo].
Defined.

Example redo_stack_before_commit : length (redoStack pressedAfterUndo) = 1%nat.
Proof. vm_compute. reflexivity. Qed.

(** C9. [clearCanvas()] leaves a surface with no painted pixel and, when
    the active index names a layer, that layer with empty data; the Undo
    Stack, the Redo Stack, the active index, the layer sequence and every
    other layer object are as before: no history entry is pushed. *)
Theorem clearCanvas_frame (s : State) :
  exists s', after (clearCanvas s) = Some s'
    /\ (forall p, pixelAt (canvas s') p = None)
    /\ history s' = history s /\ redoStack s' = redoStack s
    /\ activeLayer s' = activeLayer s /\ layers s' = layers s
    /\ pending s' = pending s
    /\ (forall r l, objectAt s (layers s) (activeLayer s) = Some (r, l) ->
          clearCanvas s = Done s'
          /\ heap s' !! r = Some (mkLayer (id l) (name l) EmptyURL)
          /\ forall r', r' <> r -> heap s' !! r' = heap s !! r').
Proof.
  unfold clearCanvas.
  set (s1 := setCanvas _ s).
  assert (Ho : objectAt s1 (layers s1) (activeLayer s1)
               = objectAt s (layers s) (activeLayer s)) by reflexivity.
  rewrite Ho.
  destruct (objectAt s (layers s) (activeLayer s)) as [[r l]|] eqn:Hobj.
  - eexists. split; [reflexivity|].
    split; [intros p; apply pixelAt_clear_all|].
    do 5 (split; [reflexivity|]).
    intros ra la Heq. inversion Heq; subst ra la.
    split; [reflexivity|]. simpl. unfold writeData.
    assert (Hr : heap s !! r = Some l).
    { unfold objectAt in Hobj. destruct (index _ _) as [r1|]; [|discriminate].
      simpl in Hobj. destruct (heap s !! r1) eqn:E; [|discriminate].
      simpl in Hobj. injection Hobj as -> ->. exact E. }
    split.
    + rewrite list_lookup_alter. rewrite decide_True by reflexivity.
      rewrite Hr. reflexivity.
    + intros r' Hne. apply list_lookup_alter_ne. congruence.
  - eexists. split; [reflexivity|].
    split; [intros p; apply pixelAt_clear_all|].
    do 5 (split; [reflexivity|]).
    intros r l Heq. discriminate.
Qed.

Lemma clearCanvas_frame_witness :
  exists s', clearCanvas afterLineAndBox = Done s'
    /\ (forall p, pixelAt (canvas s') p = None)
    /\ activeData s' = Some EmptyURL
    /\ history s' = history afterLineAndBox.
Proof.
  assert (Hsome : match objectAt afterLineAndBox (layers afterLineAndBox)
                          (activeLayer afterLineAndBox) with
                  | Some _ => true | None => false end = true)
    by (vm_compute; reflexivity).
  destruct (objectAt afterLineAndBox (layers afterLineAndBox)
              (activeLayer afterLineAndBox)) as [[r l]|] eqn:Ho;
    [|discriminate Hsome].
  destruct (clearCanvas_frame afterLineAndBox)
    as (s' & _ & Hblank & Hh & _ & Ha & Hl & _ & Hobj).
  destruct (Hobj r l Ho) as (Hc & Hr & _).
  exists s'. split; [exact Hc|]. split; [exact Hblank|]. split; [|exact Hh].
  exact (activeData_lookup afterLineAndBox s' r l _ Ho Hl Ha Hr).
Defined.





(** ** Steps of a gesture *)

Lemma render_same (s s' : State) :
  activeLayer s' = activeLayer s ->
  render s s' = Done s' \/ render s s' = Done (effectStyle s').
Proof.
  intros Ha. unfold render. rewrite Ha, Z.eqb_refl.
  destruct (_ && _); [left | right]; reflexivity.
Qed.

Lemma render_unchanged (s s' : State) :
  activeLayer s' = activeLayer s -> color s' = color s ->
  brushSize s' = brushSize s ->
  render s s' = Done s'.
Proof.
  intros Ha Hc Hb. unfold render.
  rewrite Ha, Z.eqb_refl, Hc, Hb, String.eqb_refl, Qeq_bool_refl.
  reflexivity.
Qed.

Lemma tool_button_name (k : nat) :
  let b := nth k tools "brush" in
  String.eqb b "undo" = false /\ String.eqb b "redo" = false
  /\ String.eqb b "clear" = false.
Proof.
  do 5 (destruct k as [|k]; [vm_compute; auto|]). vm_compute. auto.
Qed.


Lemma exec_configures (c : Command) (s : State) :
  configures c ->
  exists s', exec c s = Done s' /\ sameStore s s' /\ canvas s' = canvas s
             /\ isDrawing s' = isDrawing s /\ startPos s' = startPos s.
Proof.
  intros [[k ->] | [[v ->] | [n ->]]]; unfold exec; cbn [handle].
  - unfold handleButtonClick.
    destruct (tool_button_name k) as (-> & -> & ->). cbv zeta.
    destruct (render_same s (handleToolChange (nth k tools "brush")
                               (setActiveButton (Some (nth k tools "brush")) s)))
      as [-> | ->]; [reflexivity | |]; eexists; repeat split.
  - destruct (render_same s (handleColorChange v s)) as [-> | ->];
      [reflexivity | |]; eexists; repeat split.
  - destruct (render_same s (handleBrushSizeChange n s)) as [-> | ->];
      [reflexivity | |]; eexists; repeat split.
Qed.

Lemma exec_pointerDown (e : PointerEvent) (s : State) :
  exists s', exec (PointerDown e) s = Done s' /\ sameStore s s'
             /\ isDrawing s' = true /\ exists p, startPos s' = Some p.
Proof.
  unfold exec. simpl.
  rewrite render_unchanged.
  - eexists. split; [reflexivity|]. unfold startDrawing.
    destruct (getEventPos (Some e) s) as [ox oy].
    repeat split. eexists. reflexivity.
  - unfold startDrawing. destruct (getEventPos (Some e) s). reflexivity.
  - unfold startDrawing. destruct (getEventPos (Some e) s). reflexivity.
  - unfold startDrawing. destruct (getEventPos (Some e) s). reflexivity.
Qed.

Lemma draw_sameStore (e : PointerEvent) (s : State) :
  sameStore s (draw e s) /\ isDrawing (draw e s) = isDrawing s
  /\ startPos (draw e s) = startPos s /\ color (draw e s) = color s
  /\ brushSize (draw e s) = brushSize s.
Proof.
  unfold draw.
  destruct (isDrawing s) eqn:Hd; [|repeat split; auto].
  destruct (startPos s) eqn:Hp; [|repeat split; auto].
  destruct (getEventPos (Some e) s) as [ox oy].
  destruct (String.eqb (tool s) "brush");
    [|destruct (String.eqb (tool s) "eraser")]; repeat split; auto.
Qed.

Lemma exec_pointerMove (e : PointerEvent) (s : State) :
  exists s', exec (PointerMove e) s = Done s' /\ sameStore s s'
             /\ isDrawing s' = isDrawing s /\ startPos s' = startPos s.
Proof.
  destruct (draw_sameStore e s) as (Hs & Hd & Hp & Hc & Hb).
  unfold exec. simpl. rewrite render_unchanged; auto.
  - exists (draw e s). auto.
  - apply Hs.
Qed.

Lemma exec_moves (es : list PointerEvent) (s : State) :
  exists s', run (map PointerMove es) s = Done s' /\ sameStore s s'
             /\ isDrawing s' = isDrawing s /\ startPos s' = startPos s.
Proof.
  revert s. induction es as [|e es IH]; intros s.
  - exists s. repeat split.
  - destruct (exec_pointerMove e s) as (s1 & He & Hs1 & Hd1 & Hp1).
    destruct (IH s1) as (s2 & Hr & Hs2 & Hd2 & Hp2).
    exists s2. simpl. rewrite He. simpl. split; [exact Hr|].
    split; [eapply sameStore_trans; eassumption|].
    split; congruence.
Qed.

Lemma run_app (cs1 cs2 : list Command) (s : State) :
  run (cs1 ++ cs2) s = andThen (run cs1 s) (run cs2).
Proof.
  revert s. induction cs1 as [|c cs1 IH]; intros s; [reflexivity|].
  simpl. destruct (exec c s); simpl; auto.
Qed.

Lemma exec_pointerUp (e : PointerEvent) (s : State) (p : point) (r : nat)
    (l : Layer) :
  isDrawing s = true -> startPos s = Some p ->
  objectAt s (layers s) (activeLayer s) = Some (r, l) ->
  exists s', exec (PointerUp e) s = Done s'
    /\ layers s' = layers s /\ activeLayer s' = activeLayer s
    /\ history s' = (history s ++ [toDataURL (canvas s')])%list
    /\ heap s' = writeData r (toDataURL (canvas s')) (heap s)
    /\ redoStack s' = [] /\ pending s' = pending s.
Proof.
  intros Hd Hp Ho. destruct p as [x y].
  destruct (endDrawing_commits (Some e) s x y r l Hd Hp Ho) as (ox & oy & He).
  cbv zeta in He. unfold exec. cbn [handle]. rewrite He.
  destruct (drawShape_sameStore x y ox oy s) as (Hh & Hl & Ha & Hhi & Hr & Hpe).
  assert (Hcb : color (drawShape x y ox oy s) = color s
                /\ brushSize (drawShape x y ox oy s) = brushSize s).
  { unfold drawShape.
    destruct (_ || _); [destruct (String.eqb (tool s) "rectangle")|];
      split; reflexivity. }
  rewrite render_unchanged; [|simpl; tauto..].
  eexists. split; [reflexivity|]. simpl. repeat split; auto.
Qed.


Lemma orEmpty_Some (u : DataURL) : orEmpty (Some u) = u.
Proof. destruct u; reflexivity. Qed.

Lemma objectAt_writeData (s s' : State) (arr : list nat) (i : Z) (r : nat)
    (l : Layer) (v : DataURL) :
  objectAt s arr i = Some (r, l) ->
  heap s' = writeData r v (heap s) ->
  objectAt s' arr i = Some (r, mkLayer (id l) (name l) v).
Proof.
  intros Ho Hh. apply objectAt_lookup in Ho as [Hi Hr].
  unfold objectAt. rewrite Hi. simpl. rewrite Hh. unfold writeData.
  rewrite list_lookup_alter, decide_True by reflexivity.
  rewrite Hr. reflexivity.
Qed.

Lemma outcomeState_Done (o : Outcome) (s : State) :
  o = Done s -> outcomeState o = s.
Proof. intros ->. reflexivity. Qed.

(** ** The size of the bitmap *)

Ltac fields :=
  cbn [canvas ctx isDrawing tool color brushSize heap layers activeLayer
       history redoStack activeButton startPos showMobileLayers pending
       setCanvas setCtx setIsDrawing setTool setColor setBrushSize setHeap
       setLayers setActiveLayer setHistory setRedoStack setActiveButton
       setStartPos setShowMobileLayers setPending handleToolChange
       handleColorChange handleBrushSizeChange selectLayer].

Lemma sameFrame_refl (cv : Canvas) : sameFrame cv cv.
Proof. repeat split. Qed.

Lemma sameFrame_trans (cv1 cv2 cv3 : Canvas) :
  sameFrame cv1 cv2 -> sameFrame cv2 cv3 -> sameFrame cv1 cv3.
Proof.
  unfold sameFrame. intros (?&?&?&?) (?&?&?&?). repeat split; congruence.
Qed.

Lemma sameFrame_clearRect (x y w h : Q) (cv : Canvas) :
  sameFrame cv (clearRect x y w h cv).
Proof. unfold clearRect. destruct (_ || _); repeat split. Qed.

Lemma sameFrame_stroke (c : Context2D) (cv : Canvas) : sameFrame cv (stroke c cv).
Proof. repeat split. Qed.

Lemma sameFrame_strokeRect (x y w h : Q) (c : Context2D) (cv : Canvas) :
  sameFrame cv (strokeRect x y w h c cv).
Proof.
  unfold strokeRect. destruct (_ && _); [|destruct (_ || _)]; repeat split.
Qed.

Lemma sameFrame_restore (img : Image) (cv : Canvas) :
  sameFrame cv (drawImage img (clearRect 0 0 (width cv) (height cv) cv)).
Proof.
  destruct (sameFrame_clearRect 0 0 (width cv) (height cv) cv) as (?&?&?&?).
  repeat split; assumption.
Qed.

Lemma drawShape_frame (x y ox oy : Q) (s : State) :
  sameFrame (canvas s) (canvas (drawShape x y ox oy s)).
Proof.
  unfold drawShape.
  destruct (_ || _); [destruct (String.eqb (tool s) "rectangle")|]; fields;
    [apply sameFrame_strokeRect | apply sameFrame_stroke | apply sameFrame_refl].
Qed.

Lemma draw_frame (e : PointerEvent) (s : State) :
  sameFrame (canvas s) (canvas (draw e s)).
Proof.
  unfold draw.
  destruct (isDrawing s); [|apply sameFrame_refl].
  destruct (startPos s); [|apply sameFrame_refl].
  destruct (getEventPos (Some e) s) as [ox oy].
  destruct (String.eqb (tool s) "brush");
    [|destruct (String.eqb (tool s) "eraser")]; fields;
    [apply sameFrame_stroke | apply sameFrame_clearRect | apply sameFrame_refl].
Qed.

(** No handler and no image load changes the size of the bitmap. *)
Lemma handle_frame (c : Command) (s s' : State) :
  after (handle c s) = Some s' -> sameFrame (canvas s) (canvas s').
Proof.
  destruct c as [b | v | n | e | e | e | | i | v | i]; cbn [handle];
    try (intros [= <-]; apply sameFrame_refl).
  - unfold handleButtonClick, undo, redo, clearCanvas. intros H.
    branches H; fields;
      first [apply sameFrame_refl | apply sameFrame_clearRect].
  - intros [= <-]. unfold startDrawing.
    destruct (getEventPos (Some e) s). apply sameFrame_refl.
  - intros [= <-]. apply draw_frame.
  - unfold endDrawing.
    destruct (isDrawing s); [|intros [= <-]; apply sameFrame_refl].
    destruct (startPos s) as [[x y]|]; [|intros [= <-]; apply sameFrame_refl].
    destruct (getEventPos (Some e) s) as [ox oy].
    destruct (objectAt _ _ _) as [[r l]|]; intros [= <-]; fields;
      apply drawShape_frame.
  - unfold imageLoaded, onload. intros H.
    branches H; fields;
      first [apply sameFrame_refl | apply sameFrame_restore].
Qed.

Lemma exec_sized (ow oh : Q) (c : Command) (s s' : State) :
  Sized ow oh s -> after (exec c s) = Some s' -> Sized ow oh s'.
Proof.
  intros Hs. unfold exec.
  destruct (handle c s) as [s1 | s1 |] eqn:Eh; [| |discriminate].
  - assert (H1 : Sized ow oh s1).
    { destruct (handle_frame c s s1) as (?&?&?&?); [rewrite Eh; reflexivity|].
      destruct Hs as (?&?&?&?). repeat split; congruence. }
    unfold render. destruct (activeLayer s =? activeLayer s1)%Z.
    + destruct (_ && _); intros [= <-]; exact H1.
    + unfold effectActiveLayer, loadLayer.
      destruct (objectAt _ _ _) as [[r l]|]; [|discriminate].
      destruct H1 as (_ & _ & Hw & Hh).
      destruct (_ && _); intros [= <-]; repeat split; assumption.
  - intros [= <-].
    destruct (handle_frame c s s1) as (?&?&?&?); [rewrite Eh; reflexivity|].
    destruct Hs as (?&?&?&?). repeat split; congruence.
Qed.

Lemma run_sized (ow oh : Q) (cs : list Command) (s s' : State) :
  Sized ow oh s -> run cs s = Done s' -> Sized ow oh s'.
Proof.
  revert s. induction cs as [|c cs IH]; intros s Hs Hrun.
  - injection Hrun as <-. exact Hs.
  - cbn [run] in Hrun. destruct (exec c s) as [s1 | s1 |] eqn:E;
      [|discriminate..].
    apply (IH s1); [|exact Hrun].
    apply (exec_sized ow oh c s s1 Hs). rewrite E. reflexivity.
Qed.

Lemma mounted_sized (ow oh left top : Q) : Sized ow oh (mounted ow oh left top).
Proof. repeat split. Qed.

(** ** Gestures from a quiet state *)

Lemma gesture_commits (g : Gesture) (s : State) (r : nat) (l : Layer) :
  objectAt s (layers s) (activeLayer s) = Some (r, l) ->
  exists s', run (gesture g) s = Done s' /\ Quiet r s'
             /\ redoStack s' = []
             /\ history s' = (history s ++ [toDataURL (canvas s')])%list.
Proof.
  intros Ho. unfold gesture.
  set (c1 := Click _). set (c2 := PickColor _). set (c3 := SlideBrushSize _).
  destruct (exec_configures c1 s) as (s1 & E1 & S1 & _);
    [left; eexists; reflexivity|].
  destruct (exec_configures c2 s1) as (s2 & E2 & S2 & _);
    [right; left; eexists; reflexivity|].
  destruct (exec_configures c3 s2) as (s3 & E3 & S3 & _);
    [right; right; eexists; reflexivity|].
  destruct (exec_pointerDown (press g) s3) as (s4 & E4 & S4 & D4 & p & P4).
  destruct (exec_moves (moves g) s4) as (s5 & E5 & S5 & D5 & P5).
  assert (S05 : sameStore s s5)
    by (repeat (eapply sameStore_trans; [eassumption|]); apply sameStore_refl).
  assert (Ho5 : objectAt s5 (layers s5) (activeLayer s5) = Some (r, l))
    by (rewrite (objectAt_sameStore _ _ S05); exact Ho).
  destruct (exec_pointerUp (release g) s5 p r l) as
    (s6 & E6 & L6 & A6 & H6 & Hp6 & R6 & _);
    [congruence | congruence | exact Ho5 |].
  exists s6. split.
  { cbn [app run]. rewrite E1. cbn [andThen run]. rewrite E2.
    cbn [andThen run]. rewrite E3. cbn [andThen run]. rewrite E4.
    cbn [andThen]. rewrite run_app, E5. cbn [andThen run].
    rewrite E6. reflexivity. }
  split; [|split; [exact R6|]].
  - split.
    + eexists. split.
      * rewrite L6, A6. eapply objectAt_writeData; [|exact Hp6].
        rewrite <- Ho5. reflexivity.
      * simpl. rewrite H6, last_snoc. reflexivity.
    + intros q. rewrite H6, last_snoc.
      change (orEmpty (Some (toDataURL (canvas s6)))) with (toDataURL (canvas s6)).
      symmetry. apply pixelAt_toDataURL.
  - rewrite H6. destruct S05 as (_ & _ & _ & -> & _). reflexivity.
Qed.

(** Gestures on a bitmap that has pixels: each appends a snapshot that is
    an image. *)
Lemma gestures_commit (ow oh : Q) (gs : list Gesture) (s : State) (r : nat) :
  (0 < ow)%Q -> (0 < oh)%Q -> Sized ow oh s ->
  Quiet r s -> redoStack s = [] ->
  exists s' H, run (gestures gs) s = Done s' /\ Quiet r s'
    /\ redoStack s' = []
    /\ history s' = (history s ++ H)%list /\ length H = length gs
    /\ Forall (fun u => loads u = true) H.
Proof.
  intros Hw Hh. revert s. induction gs as [|g gs IH]; intros s Hs Hq Hr.
  - exists s, []. rewrite app_nil_r. repeat split; auto; apply Hq.
  - destruct Hq as [(l & Ho & Hd) Hpix].
    destruct (gesture_commits g s r l Ho) as (s1 & E1 & Q1 & R1 & L1).
    assert (Hs1 : Sized ow oh s1) by exact (run_sized ow oh _ s s1 Hs E1).
    destruct (IH s1 Hs1 Q1 R1) as (s2 & H & E2 & Q2 & R2 & L2 & N2 & F2).
    exists s2, (toDataURL (canvas s1) :: H). split.
    { unfold gestures. cbn [map concat]. rewrite run_app, E1. exact E2. }
    split; [exact Q2|]. split; [exact R2|].
    split; [rewrite L2, L1, <- app_assoc; reflexivity|].
    split; [cbn [length]; rewrite N2; reflexivity|].
    constructor; [|exact F2].
    destruct Hs1 as (W1 & H1 & _). apply sized_loads; [rewrite W1 | rewrite H1];
      assumption.
Qed.

(** ** Undo and redo with their restores *)

Lemma inBounds_restore (img : Image) (cv : Canvas) (p : point) :
  inBounds (drawImage img (clearRect 0 0 (width cv) (height cv) cv)) p
  = inBounds cv p.
Proof.
  unfold drawImage. rewrite inBounds_setBitmap. apply inBounds_clearRect.
Qed.

(** The restore that [undo] or [redo] queued last, once its image loads:
    the surface shows the image and the layer the closure names holds its
    source. *)
Lemma restore_loaded (s : State) (src : DataURL) (r : nat) (l : Layer)
    (q : list Task) :
  pending s = (q ++ [Restore src (layers s) (activeLayer s)])%list ->
  objectAt s (layers s) (activeLayer s) = Some (r, l) ->
  loads src = true ->
  exists s', imageLoaded (length q) s = Done s'
    /\ history s' = history s /\ redoStack s' = redoStack s
    /\ layers s' = layers s /\ activeLayer s' = activeLayer s
    /\ pending s' = q
    /\ objectAt s' (layers s') (activeLayer s')
       = Some (r, mkLayer (id l) (name l) src)
    /\ (forall p, inBounds (canvas s') p = inBounds (canvas s) p)
    /\ (forall p, pixelAt (canvas s') p
                  = if inBounds (canvas s) p
                    then imagePixels (decode src) p else None).
Proof.
  intros Hq Ho Hl. unfold imageLoaded. rewrite Hq.
  rewrite list_lookup_middle by reflexivity.
  cbn [source]. rewrite Hl.
  rewrite delete_middle, app_nil_r.
  cbn [onload].
  set (s1 := setCanvas _ _).
  assert (Ho1 : objectAt s1 (layers s) (activeLayer s) = Some (r, l))
    by (rewrite <- Ho; apply objectAt_heap; reflexivity).
  rewrite Ho1. eexists. split; [reflexivity|].
  do 5 (split; [reflexivity|]).
  split; [|split].
  - cbn [layers activeLayer setLayers setHeap].
    eapply objectAt_writeData; [exact Ho1 | reflexivity].
  - intros p. apply inBounds_restore.
  - intros p. apply pixelAt_restore.
Qed.

(** The image queued last has a source that is no image: its [onload]
    never runs. *)
Lemma restore_ignored (s : State) (t : Task) (q : list Task) :
  pending s = (q ++ [t])%list -> loads (source t) = false ->
  imageLoaded (length q) s = Done s.
Proof.
  intros Hq Hl. unfold imageLoaded. rewrite Hq.
  rewrite list_lookup_middle by reflexivity. rewrite Hl. reflexivity.
Qed.

Lemma loads_last (H : list DataURL) :
  H <> [] -> Forall (fun u => loads u = true) H ->
  loads (orEmpty (last H)) = true.
Proof.
  intros Hne HF. destruct (exists_last Hne) as (H' & x & ->).
  rewrite last_snoc, orEmpty_Some.
  apply Forall_app in HF as [_ HF]. inversion HF. assumption.
Qed.

(** An [undo] that leaves an entry that is an image: the surface and the
    layer go back to that entry. *)
Lemma undo_restored (s : State) (r : nat) (H : list DataURL) (x : DataURL) :
  Quiet r s -> history s = (H ++ [x])%list ->
  loads (orEmpty (last H)) = true ->
  exists s', completed undo s = Done s' /\ Quiet r s'
    /\ history s' = H /\ redoStack s' = x :: redoStack s
    /\ (forall p, inBounds (canvas s') p = inBounds (canvas s) p).
Proof.
  intros [(l & Ho & Hd) _] Hh Hl.
  assert (Hx : data l = x) by (rewrite Hd, Hh, last_snoc; apply orEmpty_Some).
  unfold completed, undo. rewrite Hh, length_app. simpl length.
  replace (length H + 1 =? 0)%nat with false
    by (symmetry; apply Nat.eqb_neq; lia).
  replace (length H + 1 - 1)%nat with (length H) by lia.
  rewrite take_app_length, Ho, Hx. cbn [andThen].
  set (s1 := setPending _ _).
  destruct (restore_loaded s1 (orEmpty (last H)) r l (pending s))
    as (s' & E & Hh' & Hr' & Hl' & Ha' & _ & Ho' & Hb' & Hp');
    [reflexivity | exact Ho | exact Hl |].
  exists s'. split; [exact E|]. split; [|auto].
  split.
  - eexists. split; [exact Ho'|]. rewrite Hh'. reflexivity.
  - intros p. rewrite Hp', Hb', Hh'. reflexivity.
Qed.

(** The [undo] of the only entry: the image it creates has the empty
    string for source, so nothing is restored; the surface and the layer
    keep that entry. *)
Lemma undo_first (s : State) (r : nat) (x : DataURL) :
  Quiet r s -> history s = [x] ->
  exists s', completed undo s = Done s'
    /\ history s' = [] /\ redoStack s' = x :: redoStack s
    /\ canvas s' = canvas s /\ heap s' = heap s
    /\ layers s' = layers s /\ activeLayer s' = activeLayer s.
Proof.
  intros [(l & Ho & Hd) _] Hh.
  assert (Hx : data l = x) by (rewrite Hd, Hh; apply orEmpty_Some).
  unfold completed, undo. rewrite Hh. cbn [length Nat.eqb Nat.sub take].
  rewrite Ho, Hx. cbn [andThen].
  rewrite (restore_ignored _ (Restore EmptyURL (layers s) (activeLayer s))
             (pending s)); [|reflexivity..].
  eexists. split; [reflexivity|]. repeat split.
Qed.

Lemma andThen_Done (o : Outcome) : andThen o Done = o.
Proof. destruct o; reflexivity. Qed.

Lemma times_snoc (n : nat) (op : State -> Outcome) (s : State) :
  times (S n) op s = andThen (times n op s) op.
Proof.
  revert s. induction n as [|n IH]; intros s.
  - cbn [times andThen]. apply andThen_Done.
  - change (times (S (S n)) op s) with (andThen (op s) (times (S n) op)).
    change (times (S n) op s) with (andThen (op s) (times n op)).
    destruct (op s) as [s1 | s1 |]; cbn [andThen]; [apply IH | reflexivity..].
Qed.

(** All entries but the first undone, one after the other. *)
Lemma undo_most (H : list DataURL) (y : DataURL) (s : State) (r : nat) :
  Quiet r s -> history s = y :: H ->
  Forall (fun u => loads u = true) (y :: H) ->
  exists s', times (length H) (completed undo) s = Done s' /\ Quiet r s'
    /\ history s' = [y] /\ redoStack s' = (H ++ redoStack s)%list
    /\ (forall p, inBounds (canvas s') p = inBounds (canvas s) p).
Proof.
  revert s. induction H as [|x H IH] using rev_ind; intros s Hq Hh HF.
  - exists s. auto.
  - assert (HF' : Forall (fun u => loads u = true) (y :: H)).
    { change (y :: H ++ [x]) with ((y :: H) ++ [x])%list in HF.
      apply Forall_app in HF as [HF _]. exact HF. }
    destruct (undo_restored s r (y :: H) x Hq Hh)
      as (s1 & E1 & Q1 & H1 & R1 & B1);
      [apply loads_last; [discriminate | exact HF']|].
    destruct (IH s1 Q1 H1 HF') as (s2 & E2 & Q2 & H2 & R2 & B2).
    exists s2. rewrite length_app, Nat.add_comm. cbn [length Nat.add times].
    rewrite E1. cbn [andThen]. split; [exact E2|].
    split; [exact Q2|]. split; [exact H2|].
    split; [rewrite R2, R1, <- app_assoc; reflexivity|].
    intros p. rewrite B2. apply B1.
Qed.

Lemma redo_restored (s : State) (r : nat) (l : Layer) (x : DataURL)
    (R : list DataURL) :
  objectAt s (layers s) (activeLayer s) = Some (r, l) ->
  redoStack s = x :: R -> loads x = true ->
  exists s', completed redo s = Done s' /\ Quiet r s'
    /\ history s' = (history s ++ [x])%list /\ redoStack s' = R
    /\ (forall p, inBounds (canvas s') p = inBounds (canvas s) p).
Proof.
  intros Ho Hr Hl.
  unfold completed, redo. rewrite Hr. cbn [andThen].
  set (s1 := setPending _ _).
  destruct (restore_loaded s1 x r l (pending s))
    as (s' & E & Hh' & Hr' & Hl' & Ha' & _ & Ho' & Hb' & Hp');
    [reflexivity | exact Ho | exact Hl |].
  exists s'. split; [exact E|]. split; [|auto].
  split.
  - eexists. split; [exact Ho'|]. rewrite Hh'. cbn [history s1 setPending setHistory].
    rewrite last_snoc, orEmpty_Some. reflexivity.
  - intros p. rewrite Hp', Hb', Hh'. cbn [history s1 setPending setHistory].
    rewrite last_snoc, orEmpty_Some. reflexivity.
Qed.

Lemma redo_all (R : list DataURL) (s : State) (r : nat) (l : Layer) :
  objectAt s (layers s) (activeLayer s) = Some (r, l) ->
  redoStack s = R -> Forall (fun u => loads u = true) R ->
  exists s', times (length R) (completed redo) s = Done s'
    /\ (Quiet r s \/ R <> [] -> Quiet r s')
    /\ history s' = (history s ++ R)%list /\ redoStack s' = []
    /\ (forall p, inBounds (canvas s') p = inBounds (canvas s) p).
Proof.
  revert s l. induction R as [|x R IH]; intros s l Ho Hr HF.
  - exists s. rewrite app_nil_r. split; [reflexivity|].
    split; [intros [Hq | Hne]; [exact Hq | congruence]|].
    repeat split; auto.
  - inversion HF as [|? ? Hx HF']; subst.
    destruct (redo_restored s r l x R Ho Hr Hx)
      as (s1 & E1 & Q1 & H1 & R1 & B1).
    destruct Q1 as [(l1 & Ho1 & Hd1) Hp1].
    destruct (IH s1 l1 Ho1 R1 HF') as (s2 & E2 & Q2 & H2 & R2 & B2).
    exists s2. cbn [length times]. rewrite E1. cbn [andThen].
    split; [exact E2|].
    split; [intros _; apply Q2; left; split; [eauto | exact Hp1]|].
    split; [rewrite H2, H1, <- app_assoc; reflexivity|].
    split; [exact R2|]. intros p. rewrite B2. apply B1.
Qed.

Lemma mounted_quiet (ow oh left top : Q) :
  Quiet 0 (mounted ow oh left top)
  /\ history (mounted ow oh left top) = []
  /\ redoStack (mounted ow oh left top) = [].
Proof.
  split; [|split; reflexivity].
  split.
  - eexists. split; reflexivity.
  - intros p. unfold pixelAt. destruct (inBounds _ p); reflexivity.
Qed.

Lemma activeData_quiet (r : nat) (s : State) :
  Quiet r s -> activeData s = Some (orEmpty (last (history s))).
Proof.
  intros [(l & Ho & Hd) _]. unfold activeData. rewrite Ho. simpl.
  rewrite Hd. reflexivity.
Qed.

(** C1 (the code departs from the claim).  After a gesture [g] and the
    gestures [gs] on the freshly mounted component, whose bitmap has
    pixels, as many calls of [undo()] as there were gestures, each
    followed by the load of its image if it loads, empty the Undo Stack
    but do not bring back the empty buffer: the image of the last
    [undo()] has the empty string for source and never loads, so the
    surface and the active layer's data stay what the first gesture
    left.  As many calls of [redo()] then bring back the surface, the
    layer data and the Undo Stack of the state after the last gesture. *)
Theorem undo_stops_at_first_gesture (ow oh left top : Q) (g : Gesture)
    (gs : list Gesture) :
  (0 < ow)%Q -> (0 < oh)%Q ->
  exists s1 sN sU sR,
    run (gesture g) (mounted ow oh left top) = Done s1
    /\ run (gestures gs) s1 = Done sN
    /\ times (S (length gs)) (completed undo) sN = Done sU
    /\ history sU = []
    /\ (forall p, pixelAt (canvas sU) p = pixelAt (canvas s1) p)
    /\ activeData sU = Some (toDataURL (canvas s1))
    /\ times (S (length gs)) (completed redo) sU = Done sR
    /\ (forall p, pixelAt (canvas sR) p = pixelAt (canvas sN) p)
    /\ activeData sR = activeData sN
    /\ history sR = history sN
    /\ redoStack sR = [].
Proof.
  intros Hw Hh.
  destruct (mounted_quiet ow oh left top) as ([(l0 & Ho0 & Hd0) Hp0] & H0 & R0).
  destruct (gesture_commits g _ 0 l0 Ho0) as (s1 & E1 & Q1 & R1 & L1).
  rewrite H0 in L1. cbn [app] in L1.
  assert (Hs1 : Sized ow oh s1)
    by exact (run_sized ow oh _ _ s1 (mounted_sized ow oh left top) E1).
  assert (Hl1 : loads (toDataURL (canvas s1)) = true).
  { destruct Hs1 as (W1 & H1 & _).
    apply sized_loads; [rewrite W1 | rewrite H1]; assumption. }
  destruct (gestures_commit ow oh gs s1 0 Hw Hh Hs1 Q1 R1)
    as (sN & H & EN & QN & RN & LN & NN & FN).
  rewrite L1 in LN. cbn [app] in LN.
  destruct (undo_most H (toDataURL (canvas s1)) sN 0 QN LN)
    as (sM & EM & QM & HM & RM & BM); [constructor; assumption|].
  destruct (undo_first sM 0 _ QM HM)
    as (sU & EU & HU & RU & CU & PU & LU & AU).
  assert (BN : forall p, inBounds (canvas sN) p = inBounds (canvas s1) p).
  { intros p. unfold inBounds.
    destruct (run_sized ow oh _ _ sN Hs1 EN) as (-> & -> & _).
    destruct Hs1 as (-> & -> & _). reflexivity. }
  assert (OU : exists lU, objectAt sU (layers sU) (activeLayer sU) = Some (0%nat, lU)
                          /\ data lU = toDataURL (canvas s1)).
  { destruct QM as [(lM & HoM & HdM) _]. exists lM. split.
    - rewrite LU, AU, <- HoM. apply objectAt_heap. exact PU.
    - rewrite HdM, HM. reflexivity. }
  destruct OU as (lU & OU & DU).
  destruct (redo_all (toDataURL (canvas s1) :: H) sU 0 lU OU)
    as (sR & ER & QR & HR & RR & BR);
    [rewrite RU, RM, RN, app_nil_r; reflexivity | constructor; assumption |].
  assert (QR' : Quiet 0 sR) by (apply QR; right; discriminate).
  clear QR. rename QR' into QR.
  rewrite HU in HR. cbn [app] in HR.
  exists s1, sN, sU, sR.
  split; [exact E1|]. split; [exact EN|].
  split; [rewrite <- NN, times_snoc, EM; exact EU|].
  split; [exact HU|].
  split.
  { intros p. rewrite CU. destruct QM as [_ Hp]. rewrite Hp, HM, BM, BN.
    apply pixelAt_toDataURL. }
  split; [unfold activeData; rewrite OU; cbn; rewrite DU; reflexivity|].
  split; [cbn [length] in ER; rewrite <- NN; exact ER|].
  split.
  { intros p. destruct QR as [_ HpR]. destruct QN as [_ HpN].
    rewrite HpR, HpN, HR, LN, BR, CU, BM. reflexivity. }
  split; [rewrite (activeData_quiet 0 sR QR), (activeData_quiet 0 sN QN), HR, LN;
          reflexivity|].
  split; [rewrite HR, LN; reflexivity | exact RR].
Qed.

Lemma undo_stops_at_first_gesture_witness :
  exists sU, completed undo afterLine = Done sU
    /\ history sU = []
    /\ pixelAt (canvas sU) (30, 10)%Q = Some "#000000"
    /\ activeData sU = Some (toDataURL (canvas afterLine)).
Proof.
  destruct (undo_stops_at_first_gesture 300 150 0 0 line [])
    as (s1 & sN & sU & sR & E1 & EN & EU & HU & PU & DU & _);
    [reflexivity | reflexivity |].
  assert (X1 : afterLine = s1)
    by (unfold afterLine, fresh; apply outcomeState_Done, E1).
  cbn [gestures map concat run] in EN. injection EN as <-.
  cbn [length times] in EU. rewrite andThen_Done in EU.
  exists sU. rewrite X1. split; [exact EU|]. split; [exact HU|].
  split; [|exact DU].
  rewrite PU, <- X1. vm_compute. reflexivity.
Defined.

(** ** Redo order *)







(** ** Shape tools while dragging *)

(** C3 (as stated, refuted).  The rectangle tool is pressed at [(0, 0)] on
    the empty canvas and the pointer moves to [(100, 50)]: the surface
    shows nothing at all, although the outline from the anchor to that
    point, as the release draws it, passes through [(50, 0)]. *)
Lemma no_preview_on_move :
  tool rectanglePressed = "rectangle" /\ isDrawing rectanglePressed = true
  /\ (forall p,
        pixelAt (canvas (draw (MouseEvent 100 50) rectanglePressed)) p = None)
  /\ pixelAt (canvas (outcomeState
                (endDrawing (Some (MouseEvent 100 50))
                   (draw (MouseEvent 100 50) rectanglePressed))))
             (50, 0)%Q = Some "#000000".
Proof.
  split; [vm_compute; reflexivity|]. split; [vm_compute; reflexivity|].
  split; [|vm_compute; reflexivity].
  assert (Hb : bitmap (canvas (draw (MouseEvent 100 50) rectanglePressed))
               = fun _ => None) by (vm_compute; reflexivity).
  intros p. unfold pixelAt. rewrite Hb. destruct (inBounds _ p); reflexivity.
Qed.

(** C3 (amended).  During a drag with the rectangle or the circle tool a
    move draws nothing: the canvas is the same, and so are the layer
    objects, the layer sequence, the active index, both stacks and the
    images in flight; the gesture stays in progress with its anchor.
    Nothing of the shape is on the surface or in a snapshot before the
    release. *)
Theorem shape_move_draws_nothing (e : PointerEvent) (s : State) :
  tool s = "rectangle" \/ tool s = "circle" ->
  canvas (draw e s) = canvas s
  /\ heap (draw e s) = heap s /\ layers (draw e s) = layers s
  /\ activeLayer (draw e s) = activeLayer s
  /\ history (draw e s) = history s /\ redoStack (draw e s) = redoStack s
  /\ pending (draw e s) = pending s
  /\ isDrawing (draw e s) = isDrawing s /\ startPos (draw e s) = startPos s.
Proof.
  intros Ht. unfold draw.
  destruct (isDrawing s) eqn:Hd; [|repeat split; auto].
  destruct (startPos s) eqn:Hp; [|repeat split; auto].
  destruct (getEventPos (Some e) s) as [ox oy].
  destruct Ht as [-> | ->]; simpl; repeat split; auto.
Qed.

Lemma shape_move_draws_nothing_witness :
  canvas (draw (MouseEvent 100 50) rectanglePressed) = canvas rectanglePressed
  /\ history (draw (MouseEvent 100 50) rectanglePressed)
     = history rectanglePressed.
Proof.
  destruct (shape_move_draws_nothing (MouseEvent 100 50) rectanglePressed)
    as (Hc & _ & _ & _ & Hh & _).
  - left. vm_compute. reflexivity.
  - split; [exact Hc | exact Hh].
Defined.

(** ** Selecting a layer *)

(** C4 (as stated, refuted).  On the mounted component, which has one
    layer, [selectLayer(5)] neither keeps the old index nor brings the
    index into range; the effect that follows reads [layers[5].data] and
    throws. *)
Lemma selectLayer_unchecked :
  length (layers fresh) = 1%nat
  /\ ~ (activeLayer (selectLayer 5 fresh) = activeLayer fresh
        \/ (0 <= activeLayer (selectLayer 5 fresh)
            < Z.of_nat (length (layers (selectLayer 5 fresh))))%Z)
  /\ exec (ClickLayer 5) fresh = Unmounted
  /\ exec (ClickLayer (-1)) fresh = Unmounted.
Proof.
  split; [reflexivity|]. split; [|split; vm_compute; reflexivity].
  intros [H | [_ H]]; vm_compute in H; discriminate H.
Qed.

(** C4 (amended).  [selectLayer(index)] stores [index] as the active index
    as it is given and changes nothing else of the layers; the new active
    index names an element of the layer sequence exactly when
    [0 <= index < layers.length]. *)
Theorem selectLayer_stores_index (index : Z) (s : State) :
  activeLayer (selectLayer index s) = index
  /\ layers (selectLayer index s) = layers s
  /\ heap (selectLayer index s) = heap s
  /\ (is_Some (App.index (layers (selectLayer index s))
                         (activeLayer (selectLayer index s)))
      <-> (0 <= index < Z.of_nat (length (layers s)))%Z).
Proof.
  split; [reflexivity|]. split; [reflexivity|]. split; [reflexivity|].
  cbn [selectLayer setActiveLayer layers activeLayer]. unfold App.index.
  destruct (index <? 0)%Z eqn:E.
  - apply Z.ltb_lt in E. split; [intros [x Hx]; discriminate | lia].
  - apply Z.ltb_ge in E. rewrite lookup_lt_is_Some. lia.
Qed.

Lemma selectLayer_stores_index_witness :
  activeLayer (selectLayer 0 addedWhileRestoring) = 0%Z
  /\ (0 <= 0 < Z.of_nat (length (layers addedWhileRestoring)))%Z.
Proof.
  destruct (selectLayer_stores_index 0 addedWhileRestoring)
    as (Ha & _ & _ & Hiff).
  split; [exact Ha|]. apply Hiff. vm_compute. eexists. reflexivity.
Defined.

(** ** The eraser *)




(** ** Layers and restores in flight *)

(** C10 (the code departs from the claim).  Two strokes are drawn and
    undo is clicked: the image of the restore is the snapshot of the first
    stroke.  Before it has loaded, a layer is added, so the component has
    two layers.  When the image loads, its [onload] closure calls
    [setLayers] with a copy of the [layers] array of the render in which
    [undo] ran, which has one element: the sequence is back to length 1
    and the added layer is gone, through no call of [addLayer].  Every
    step is one the page offers. *)
Theorem restore_drops_added_layer :
  match runOffered (gestures [line; box]
                    ++ [Click "undo"; ClickAddLayer; ImageLoaded 1]) fresh with
  | Some s => length (layers s) =? 1
  | None => false
  end%nat = true
  /\ isDone (run [Click "undo"; ClickAddLayer; ImageLoaded 1] afterLineAndBox)
     = true
  /\ length (layers afterLineAndBox) = 1%nat
  /\ length (layers addedWhileRestoring) = 2%nat
  /\ (exists src, pending addedWhileRestoring !! 1%nat
                  = Some (Restore src (layers afterLineAndBox) 0)
                  /\ loads src = true)
  /\ length (layers (outcomeState (exec (ImageLoaded 1) addedWhileRestoring)))
     = 1%nat
  /\ length (layers restoredAfterAdding) = 1%nat.
Proof.
  do 4 (split; [vm_compute; reflexivity|]).
  split; [|split; vm_compute; reflexivity].
  assert (Hl : layers afterLineAndBox = [0%nat]) by (vm_compute; reflexivity).
  assert (Ht : match pending addedWhileRestoring !! 1%nat with
               | Some (Restore src [O] 0%Z) => loads src
               | _ => false
               end = true) by (vm_compute; reflexivity).
  rewrite Hl.
  destruct (pending addedWhileRestoring !! 1%nat) as [[src | src lys a]|];
    try discriminate Ht.
  destruct lys as [|[|r] [|r' lys]]; try discriminate Ht.
  destruct a; try discriminate Ht.
  exists src. split; [reflexivity | exact Ht].
Qed.

(** *** The numbering of the layers *)

Lemma keepsIds_refl (h : list Layer) : keepsIds h h.
Proof. intros r l H. eauto. Qed.

Lemma keepsIds_writeData (r : nat) (v : DataURL) (h : list Layer) :
  keepsIds h (writeData r v h).
Proof.
  intros r' l H. unfold writeData. rewrite list_lookup_alter.
  destruct (decide (r = r')) as [->|]; [|eauto].
  rewrite H. eexists. repeat split.
Qed.

Lemma keepsIds_snoc (h : list Layer) (x : Layer) : keepsIds h (h ++ [x]).
Proof. intros r l H. exists l. split; [apply lookup_app_l_Some, H | auto]. Qed.

Lemma numbered_keepsIds (h h' : list Layer) (arr : list nat) :
  keepsIds h h' -> numbered h arr -> numbered h' arr.
Proof.
  intros Hk Hn i r Hi. destruct (Hn i r Hi) as (l & Hl & Hid & Hname).
  destruct (Hk r l Hl) as (l' & Hl' & Hid' & Hname').
  exists l'. split; [exact Hl' | split; congruence].
Qed.

(** A step that keeps the objects' numbers, takes its [layers] from the
    state before or from a restore in flight there, and queues restores
    only with the [layers] of the state before. *)
Lemma layersNumbered_update (s s' : State) :
  layersNumbered s ->
  keepsIds (heap s) (heap s') ->
  (layers s' = layers s
   \/ exists src a, Restore src (layers s') a ∈ pending s) ->
  (forall src arr a, Restore src arr a ∈ pending s' ->
     Restore src arr a ∈ pending s \/ arr = layers s) ->
  layersNumbered s'.
Proof.
  intros [Hl Hp] Hk Hlay Hpend. split.
  - apply (numbered_keepsIds _ _ _ Hk).
    destruct Hlay as [-> | (src & a & Hin)]; [exact Hl | exact (Hp _ _ _ Hin)].
  - intros src arr a Hin. apply (numbered_keepsIds _ _ _ Hk).
    destruct (Hpend _ _ _ Hin) as [Hold | ->]; [exact (Hp _ _ _ Hold) | exact Hl].
Qed.

Lemma layersNumbered_same (s s' : State) :
  layersNumbered s -> heap s' = heap s -> layers s' = layers s ->
  pending s' = pending s -> layersNumbered s'.
Proof.
  intros Hn Hh Hl Hp. apply (layersNumbered_update s s' Hn).
  - rewrite Hh. apply keepsIds_refl.
  - left. exact Hl.
  - intros src arr a Hin. left. rewrite <- Hp. exact Hin.
Qed.

Lemma layersNumbered_addLayer (s : State) :
  layersNumbered s -> layersNumbered (addLayer s).
Proof.
  intros [Hl Hp]. unfold addLayer. split; simpl.
  - intros i r Hi. apply lookup_snoc_Some in Hi as [[_ Hi] | [-> <-]].
    + apply (numbered_keepsIds _ _ _ (keepsIds_snoc _ _) Hl i r Hi).
    + eexists. split; [apply list_lookup_middle; reflexivity|].
      simpl. rewrite Nat.add_1_r. split; reflexivity.
  - intros src arr a Hin.
    apply (numbered_keepsIds _ _ _ (keepsIds_snoc _ _)), (Hp _ _ _ Hin).
Qed.

Lemma layersNumbered_queue (s : State) (t : Task) :
  layersNumbered s ->
  (forall src arr a, t = Restore src arr a -> arr = layers s) ->
  layersNumbered (setPending (pending s ++ [t]) s).
Proof.
  intros Hn Ht. apply (layersNumbered_update s _ Hn).
  - apply keepsIds_refl.
  - left. reflexivity.
  - intros src arr a Hin. simpl in Hin.
    apply elem_of_app in Hin as [Hin | Hin]; [left; exact Hin|].
    apply list_elem_of_singleton in Hin. right. eapply Ht. symmetry. exact Hin.
Qed.

Lemma layersNumbered_undo (s s' : State) :
  layersNumbered s -> after (undo s) = Some s' -> layersNumbered s'.
Proof.
  intros Hn. unfold undo.
  destruct (length (history s) =? 0)%nat.
  { intros [= <-]. exact Hn. }
  destruct (objectAt s (layers s) (activeLayer s)) as [[r l]|].
  - intros [= <-].
    apply (layersNumbered_same _ (setRedoStack (data l :: redoStack s)
             (setHistory (take (length (history s) - 1) (history s)) s)))
      in Hn; [|reflexivity..].
    apply (layersNumbered_queue _ _ Hn). intros src arr a [= _ <- _]. reflexivity.
  - intros [= <-]. apply (layersNumbered_same s); auto.
Qed.

Lemma layersNumbered_redo (s s' : State) :
  layersNumbered s -> after (redo s) = Some s' -> layersNumbered s'.
Proof.
  intros Hn. unfold redo. destruct (redoStack s) as [|next rest].
  { intros [= <-]. exact Hn. }
  intros [= <-].
  apply (layersNumbered_same _ (setHistory (history s ++ [next])
           (setRedoStack rest s))) in Hn; [|reflexivity..].
  apply (layersNumbered_queue _ _ Hn). intros src arr a [= _ <- _]. reflexivity.
Qed.

Lemma layersNumbered_write (s s' : State) (r : nat) (v : DataURL) :
  layersNumbered s -> heap s' = writeData r v (heap s) ->
  layers s' = layers s -> pending s' = pending s -> layersNumbered s'.
Proof.
  intros Hn Hh Hl Hp. apply (layersNumbered_update s s' Hn).
  - rewrite Hh. apply keepsIds_writeData.
  - left. exact Hl.
  - intros src arr a Hin. left. rewrite <- Hp. exact Hin.
Qed.

Lemma layersNumbered_clearCanvas (s s' : State) :
  layersNumbered s -> after (clearCanvas s) = Some s' -> layersNumbered s'.
Proof.
  intros Hn. unfold clearCanvas.
  destruct (objectAt _ _ _) as [[r l]|]; intros [= <-].
  - eapply (layersNumbered_write s _ r EmptyURL Hn); reflexivity.
  - apply (layersNumbered_same s); auto.
Qed.

Lemma layersNumbered_endDrawing (e : option PointerEvent) (s s' : State) :
  layersNumbered s -> after (endDrawing e s) = Some s' -> layersNumbered s'.
Proof.
  intros Hn. unfold endDrawing.
  destruct (isDrawing s); [|intros [= <-]; exact Hn].
  destruct (startPos s) as [[x y]|]; [|intros [= <-]; exact Hn].
  destruct (match e with Some ev => getEventPos (Some ev) s | None => (x, y) end)
    as [ox oy].
  destruct (drawShape_sameStore x y ox oy s) as (Hh & Hl & _ & _ & _ & Hp).
  destruct (objectAt _ _ _) as [[r l]|]; intros [= <-].
  - eapply (layersNumbered_write s _ r _ Hn); simpl;
      [rewrite Hh; reflexivity | exact Hl | exact Hp].
  - apply (layersNumbered_same s); auto.
Qed.

Lemma layersNumbered_imageLoaded (i : nat) (s s' : State) :
  layersNumbered s -> after (imageLoaded i s) = Some s' -> layersNumbered s'.
Proof.
  intros Hn. unfold imageLoaded.
  destruct (pending s !! i) as [t|] eqn:Et; [|intros [= <-]; exact Hn].
  destruct (loads (source t)); [|intros [= <-]; exact Hn].
  assert (Hdel : forall src arr a,
             Restore src arr a ∈ delete i (pending s) ->
             Restore src arr a ∈ pending s \/ arr = layers s)
    by (intros src arr a Hin; left; eapply list_elem_of_delete_inv, Hin).
  destruct t as [src | src lys act]; cbn [onload].
  - intros [= <-]. apply (layersNumbered_update s _ Hn);
      [apply keepsIds_refl | left; reflexivity | exact Hdel].
  - destruct (objectAt _ lys act) as [[r l]|]; intros [= <-].
    + apply (layersNumbered_update s _ Hn);
        [apply keepsIds_writeData | | exact Hdel].
      right. exists src, act. apply (list_elem_of_lookup_2 _ i), Et.
    + apply (layersNumbered_update s _ Hn);
        [apply keepsIds_refl | left; reflexivity | exact Hdel].
Qed.

Lemma layersNumbered_handle (c : Command) (s s' : State) :
  layersNumbered s -> after (handle c s) = Some s' -> layersNumbered s'.
Proof.
  intros Hn. destruct c as [b | v | n | e | e | e | | i | v | i]; cbn [handle].
  - unfold handleButtonClick.
    assert (Hb : layersNumbered (setActiveButton (Some b) s))
      by (apply (layersNumbered_same s); auto).
    destruct (String.eqb b "undo"); [apply layersNumbered_undo, Hb|].
    destruct (String.eqb b "redo"); [apply layersNumbered_redo, Hb|].
    destruct (String.eqb b "clear"); [apply layersNumbered_clearCanvas, Hb|].
    intros [= <-]. apply (layersNumbered_same s); auto.
  - intros [= <-]. apply (layersNumbered_same s); auto.
  - intros [= <-]. apply (layersNumbered_same s); auto.
  - intros [= <-]. unfold startDrawing.
    destruct (getEventPos (Some e) s). apply (layersNumbered_same s); auto.
  - intros [= <-]. destruct (draw_sameStore e s) as ((Hh & Hl & _ & _ & _ & Hp) & _).
    apply (layersNumbered_same s); auto.
  - apply layersNumbered_endDrawing, Hn.
  - intros [= <-]. apply layersNumbered_addLayer, Hn.
  - intros [= <-]. apply (layersNumbered_same s); auto.
  - intros [= <-]. apply (layersNumbered_same s); auto.
  - apply layersNumbered_imageLoaded, Hn.
Qed.

Lemma layersNumbered_render (s0 s s' : State) :
  layersNumbered s -> after (render s0 s) = Some s' -> layersNumbered s'.
Proof.
  intros Hn. unfold render.
  destruct (activeLayer s0 =? activeLayer s)%Z.
  - destruct (_ && _); intros [= <-]; [exact Hn|].
    apply (layersNumbered_same s); auto.
  - unfold effectActiveLayer, loadLayer.
    destruct (objectAt _ _ _) as [[r l]|]; [|discriminate].
    set (s1 := setCtx _ _).
    assert (H1 : layersNumbered s1) by (apply (layersNumbered_same s); auto).
    assert (H2 : layersNumbered (setPending (pending s1 ++ [LoadLayer (data l)]) s1))
      by (apply (layersNumbered_queue _ _ H1); intros; discriminate).
    destruct (_ && _); intros [= <-]; [exact H2|].
    apply (layersNumbered_same _ _ H2); reflexivity.
Qed.

Lemma layersNumbered_exec (c : Command) (s s' : State) :
  layersNumbered s -> after (exec c s) = Some s' -> layersNumbered s'.
Proof.
  intros Hn. unfold exec.
  destruct (handle c s) as [s1 | s1 |] eqn:Eh; [| |discriminate].
  - apply layersNumbered_render. eapply layersNumbered_handle; [exact Hn|].
    rewrite Eh. reflexivity.
  - intros [= <-]. eapply layersNumbered_handle; [exact Hn|].
    rewrite Eh. reflexivity.
Qed.

Lemma layersNumbered_mounted (ow oh left top : Q) :
  layersNumbered (mounted ow oh left top).
Proof.
  split.
  - intros [|i] r Hi; [|discriminate]. injection Hi as <-.
    eexists. repeat split.
  - intros src arr a Hin. cbn in Hin.
    apply list_elem_of_singleton in Hin. discriminate.
Qed.

(** X1. In every reachable state the layer at position [i] has id [i + 1]
    and name ["Layer " ++ (i + 1)], whatever restores completed in which
    order; so the ids grow strictly along the sequence. *)
Lemma reachable_layers_numbered (ow oh left top : Q) (s : State) :
  reachable ow oh left top s ->
  layersNumbered s
  /\ forall i j ri rj li lj,
       layers s !! i = Some ri -> layers s !! j = Some rj ->
       heap s !! ri = Some li -> heap s !! rj = Some lj ->
       (i < j)%nat -> (id li < id lj)%nat.
Proof.
  intros Hr.
  assert (Hn : layersNumbered s).
  { induction Hr as [|s c s' _ IH Hs]; [apply layersNumbered_mounted|].
    exact (layersNumbered_exec c s s' IH Hs). }
  split; [exact Hn|].
  intros i j ri rj li lj Hi Hj Hli Hlj Hlt.
  destruct Hn as [Hl _].
  destruct (Hl i ri Hi) as (l1 & E1 & I1 & _).
  destruct (Hl j rj Hj) as (l2 & E2 & I2 & _).
  assert (l1 = li) by congruence. assert (l2 = lj) by congruence.
  subst. lia.
Qed.

Lemma isDone_outcomeState (o : Outcome) :
  isDone o = true -> o = Done (outcomeState o).
Proof. destruct o; [reflexivity | discriminate | discriminate]. Qed.

Lemma reachable_run (ow oh left top : Q) (cs : list Command) (s s' : State) :
  reachable ow oh left top s -> run cs s = Done s' ->
  reachable ow oh left top s'.
Proof.
  revert s. induction cs as [|c cs IH]; intros s Hr Hrun.
  - injection Hrun as <-. exact Hr.
  - cbn [run] in Hrun. destruct (exec c s) as [s1 | s1 |] eqn:E;
      [|discriminate..].
    apply (IH s1); [|exact Hrun].
    apply (reachable_exec _ _ _ _ s c s1 Hr). rewrite E. reflexivity.
Qed.

Lemma reachable_afterLineAndBox : reachable 300 150 0 0 afterLineAndBox.
Proof.
  apply (reachable_run _ _ _ _ (gestures [line; box]) fresh).
  - unfold fresh. apply reachable_mounted.
  - unfold afterLineAndBox. apply isDone_outcomeState. vm_compute. reflexivity.
Qed.

Lemma reachable_restoredAfterAdding :
  reachable 300 150 0 0 restoredAfterAdding.
Proof.
  apply (reachable_run _ _ _ _ [Click "undo"; ClickAddLayer; ImageLoaded 1]
           afterLineAndBox).
  - exact reachable_afterLineAndBox.
  - unfold restoredAfterAdding. apply isDone_outcomeState.
    vm_compute. reflexivity.
Qed.

Lemma reachable_layers_numbered_witness :
  layersNumbered restoredAfterAdding.
Proof.
  exact (proj1 (reachable_layers_numbered 300 150 0 0 restoredAfterAdding
                  reachable_restoredAfterAdding)).
Defined.

(** ** Where the layer sequence comes from *)

Lemma layersFrom_same (s s' : State) :
  layers s' = layers s -> pending s' = pending s -> layersFrom s s'.
Proof.
  intros Hl Hp. split; [left; exact Hl|].
  intros src arr a Hin. left. rewrite <- Hp. exact Hin.
Qed.

Lemma layersFrom_queue (s s' : State) (t : Task) :
  layers s' = layers s -> pending s' = (pending s ++ [t])%list ->
  (forall src arr a, t = Restore src arr a -> arr = layers s) ->
  layersFrom s s'.
Proof.
  intros Hl Hp Ht. split; [left; exact Hl|].
  intros src arr a Hin. rewrite Hp in Hin.
  apply elem_of_app in Hin as [Hin | Hin]; [left; exact Hin|].
  apply list_elem_of_singleton in Hin. right. eapply Ht. symmetry. exact Hin.
Qed.

Lemma undo_layersFrom (s s' : State) :
  after (undo s) = Some s' -> layersFrom s s' /\ layers s' = layers s.
Proof.
  unfold undo. destruct (length (history s) =? 0)%nat.
  { intros [= <-]. split; [apply layersFrom_same|]; reflexivity. }
  destruct (objectAt s (layers s) (activeLayer s)) as [[r l]|]; intros [= <-].
  - split; [|reflexivity].
    eapply layersFrom_queue; [reflexivity | reflexivity |].
    intros src arr a [= _ <- _]. reflexivity.
  - split; [apply layersFrom_same|]; reflexivity.
Qed.

Lemma redo_layersFrom (s s' : State) :
  after (redo s) = Some s' -> layersFrom s s' /\ layers s' = layers s.
Proof.
  unfold redo. destruct (redoStack s) as [|next rest]; intros [= <-].
  - split; [apply layersFrom_same|]; reflexivity.
  - split; [|reflexivity].
    eapply layersFrom_queue; [reflexivity | reflexivity |].
    intros src arr a [= _ <- _]. reflexivity.
Qed.

Lemma clearCanvas_layersFrom (s s' : State) :
  after (clearCanvas s) = Some s' -> layersFrom s s' /\ layers s' = layers s.
Proof.
  unfold clearCanvas. destruct (objectAt _ _ _) as [[r l]|]; intros [= <-];
    (split; [apply layersFrom_same|]; reflexivity).
Qed.

Lemma endDrawing_layersFrom (e : option PointerEvent) (s s' : State) :
  after (endDrawing e s) = Some s' -> layersFrom s s' /\ layers s' = layers s.
Proof.
  unfold endDrawing.
  destruct (isDrawing s);
    [|intros [= <-]; split; [apply layersFrom_same|]; reflexivity].
  destruct (startPos s) as [[x y]|];
    [|intros [= <-]; split; [apply layersFrom_same|]; reflexivity].
  destruct (match e with Some ev => getEventPos (Some ev) s | None => (x, y) end)
    as [ox oy].
  destruct (drawShape_sameStore x y ox oy s) as (_ & Hl & _ & _ & _ & Hp).
  destruct (objectAt _ _ _) as [[r l]|]; intros [= <-];
    (split; [apply layersFrom_same|]; simpl; assumption).
Qed.

Lemma imageLoaded_layersFrom (i : nat) (s s' : State) :
  after (imageLoaded i s) = Some s' ->
  layersFrom s s'
  /\ (layers s' = layers s
      \/ exists src a, pending s !! i = Some (Restore src (layers s') a)).
Proof.
  unfold imageLoaded.
  destruct (pending s !! i) as [t|] eqn:Et;
    [|intros [= <-]; split; [apply layersFrom_same; reflexivity | left; reflexivity]].
  destruct (loads (source t));
    [|intros [= <-]; split; [apply layersFrom_same; reflexivity | left; reflexivity]].
  assert (Hdel : forall src arr a,
             Restore src arr a ∈ delete i (pending s) ->
             Restore src arr a ∈ pending s \/ arr = layers s)
    by (intros src arr a Hin; left; eapply list_elem_of_delete_inv, Hin).
  destruct t as [src | src lys act]; cbn [onload].
  - intros [= <-]. split; [split; [left; reflexivity | exact Hdel] | left; reflexivity].
  - destruct (objectAt _ lys act) as [[r l]|]; intros [= <-].
    + split; [split; [|exact Hdel]|].
      * right. left. exists src, act. apply (list_elem_of_lookup_2 _ i), Et.
      * right. exists src, act. reflexivity.
    + split; [split; [left; reflexivity | exact Hdel] | left; reflexivity].
Qed.

Lemma render_layers (s0 s s' : State) :
  after (render s0 s) = Some s' ->
  layers s' = layers s
  /\ forall src arr a, Restore src arr a ∈ pending s' ->
                       Restore src arr a ∈ pending s.
Proof.
  unfold render. destruct (activeLayer s0 =? activeLayer s)%Z.
  - destruct (_ && _); intros [= <-]; split; auto.
  - unfold effectActiveLayer, loadLayer.
    destruct (objectAt _ _ _) as [[r l]|]; [|discriminate].
    assert (Hq : forall (q : list Task) src arr a,
               Restore src arr a ∈ (q ++ [LoadLayer (data l)])%list ->
               Restore src arr a ∈ q).
    { intros q src arr a Hin. apply elem_of_app in Hin as [Hin | Hin]; [exact Hin|].
      apply list_elem_of_singleton in Hin. discriminate. }
    destruct (_ && _); intros [= <-]; split; try reflexivity;
      intros src arr a Hin; apply Hq in Hin; exact Hin.
Qed.

Lemma handle_layersFrom (c : Command) (s s' : State) :
  after (handle c s) = Some s' -> layersFrom s s'.
Proof.
  destruct c as [b | v | n | e | e | e | | i | v | i]; cbn [handle].
  - unfold handleButtonClick.
    assert (Hb : forall s1, layersFrom (setActiveButton (Some b) s) s1 ->
                            layersFrom s s1) by (intros s1 H; exact H).
    destruct (String.eqb b "undo"); [intros H; apply Hb, undo_layersFrom, H|].
    destruct (String.eqb b "redo"); [intros H; apply Hb, redo_layersFrom, H|].
    destruct (String.eqb b "clear");
      [intros H; apply Hb, clearCanvas_layersFrom, H|].
    intros [= <-]. apply layersFrom_same; reflexivity.
  - intros [= <-]. apply layersFrom_same; reflexivity.
  - intros [= <-]. apply layersFrom_same; reflexivity.
  - intros [= <-]. unfold startDrawing. destruct (getEventPos (Some e) s).
    apply layersFrom_same; reflexivity.
  - intros [= <-].
    destruct (draw_sameStore e s) as ((_ & Hl & _ & _ & _ & Hp) & _).
    apply layersFrom_same; assumption.
  - intros H. apply (endDrawing_layersFrom _ _ _ H).
  - intros [= <-]. split; [right; right; eexists; reflexivity|].
    intros src arr a Hin. left. exact Hin.
  - intros [= <-]. apply layersFrom_same; reflexivity.
  - intros [= <-]. apply layersFrom_same; reflexivity.
  - intros H. apply (imageLoaded_layersFrom _ _ _ H).
Qed.

Lemma exec_layersFrom (c : Command) (s s' : State) :
  after (exec c s) = Some s' -> layersFrom s s'.
Proof.
  unfold exec. destruct (handle c s) as [s1 | s1 |] eqn:Eh; [| |discriminate].
  - intros Hr. destruct (render_layers s s1 s' Hr) as [Hl Hp].
    destruct (handle_layersFrom c s s1) as [Hlay Hpend];
      [rewrite Eh; reflexivity|].
    split; [rewrite Hl; exact Hlay|].
    intros src arr a Hin. apply Hpend, Hp, Hin.
  - intros [= <-]. apply (handle_layersFrom c). rewrite Eh. reflexivity.
Qed.

Lemma handle_layer_sequence (c : Command) (s s1 : State) :
  after (handle c s) = Some s1 ->
  match c with
  | ClickAddLayer => layers s1 = (layers s ++ [length (heap s)])%list
  | ImageLoaded i =>
      layers s1 = layers s
      \/ exists src a, pending s !! i = Some (Restore src (layers s1) a)
  | _ => layers s1 = layers s
  end.
Proof.
  intros Ha. destruct c as [b | v | n | e | e | e | | i | v | i];
    cbn [handle] in Ha; try (injection Ha as <-; reflexivity).
  - unfold handleButtonClick in Ha.
    destruct (String.eqb b "undo"); [apply (undo_layersFrom _ _ Ha)|].
    destruct (String.eqb b "redo"); [apply (redo_layersFrom _ _ Ha)|].
    destruct (String.eqb b "clear"); [apply (clearCanvas_layersFrom _ _ Ha)|].
    injection Ha as <-. reflexivity.
  - injection Ha as <-. unfold startDrawing.
    destruct (getEventPos (Some e) s). reflexivity.
  - injection Ha as <-. apply (draw_sameStore e s).
  - apply (endDrawing_layersFrom _ _ _ Ha).
  - apply (imageLoaded_layersFrom _ _ _ Ha).
Qed.

(** X2. What an event can do to the layer sequence: [addLayer] appends one
    reference; an image that finishes loading leaves it or, when the image
    is a restore queued by [undo] or [redo], replaces it by the array that
    restore captured; every other event leaves it as it is. *)
Theorem layer_sequence_changes (c : Command) (s s' : State) :
  after (exec c s) = Some s' ->
  match c with
  | ClickAddLayer => layers s' = (layers s ++ [length (heap s)])%list
  | ImageLoaded i =>
      layers s' = layers s
      \/ exists src a, pending s !! i = Some (Restore src (layers s') a)
  | _ => layers s' = layers s
  end.
Proof.
  unfold exec. destruct (handle c s) as [s1 | s1 |] eqn:Eh; [| |discriminate].
  - intros Hr. destruct (render_layers s s1 s' Hr) as [-> _].
    apply handle_layer_sequence. rewrite Eh. reflexivity.
  - intros [= <-]. apply handle_layer_sequence. rewrite Eh. reflexivity.
Qed.

Lemma after_isDone (o : Outcome) :
  isDone o = true -> after o = Some (outcomeState o).
Proof. destruct o; [reflexivity | discriminate | discriminate]. Qed.

Lemma layer_sequence_changes_witness :
  layers (outcomeState (exec (ImageLoaded 1) addedWhileRestoring))
  = layers addedWhileRestoring
  \/ exists src a,
       pending addedWhileRestoring !! 1%nat
       = Some (Restore src
                 (layers (outcomeState
                            (exec (ImageLoaded 1) addedWhileRestoring))) a).
Proof.
  assert (H : after (exec (ImageLoaded 1) addedWhileRestoring)
              = Some (outcomeState (exec (ImageLoaded 1) addedWhileRestoring)))
    by (apply after_isDone; vm_compute; reflexivity).
  exact (layer_sequence_changes (ImageLoaded 1) _ _ H).
Defined.

(** ** The first layer *)

Lemma rooted_step (s s' : State) : rooted s -> layersFrom s s' -> rooted s'.
Proof.
  intros [Hl Hp] [Hlay Hpend]. split.
  - destruct Hlay as [-> | [(src & a & Hin) | [r ->]]].
    + exact Hl.
    + exact (Hp _ _ _ Hin).
    + apply lookup_app_l_Some, Hl.
  - intros src arr a Hin.
    destruct (Hpend _ _ _ Hin) as [Hold | ->]; [exact (Hp _ _ _ Hold) | exact Hl].
Qed.

Lemma rooted_reachable (ow oh left top : Q) (s : State) :
  reachable ow oh left top s -> rooted s.
Proof.
  induction 1 as [|s c s' _ IH Hs].
  - split; [reflexivity|]. intros src arr a Hin. cbn in Hin.
    apply list_elem_of_singleton in Hin. discriminate.
  - exact (rooted_step s s' IH (exec_layersFrom c s s' Hs)).
Qed.

Lemma layersNumbered_reachable (ow oh left top : Q) (s : State) :
  reachable ow oh left top s -> layersNumbered s.
Proof.
  induction 1 as [|s c s' _ IH Hs]; [apply layersNumbered_mounted|].
  exact (layersNumbered_exec c s s' IH Hs).
Qed.

(** X3. The layer created at mount is never lost: in every reachable state
    the layer sequence is not empty and its first element is that object,
    with id 1 and name "Layer 1"; so the active index 0 always names a
    layer. *)
Theorem first_layer_stays (ow oh left top : Q) (s : State) :
  reachable ow oh left top s ->
  layers s <> []
  /\ exists l, objectAt s (layers s) 0 = Some (0%nat, l)
               /\ id l = 1%nat /\ name l = "Layer 1".
Proof.
  intros Hr. destruct (rooted_reachable _ _ _ _ s Hr) as [H0 _].
  destruct (layersNumbered_reachable _ _ _ _ s Hr) as [Hn _].
  destruct (Hn 0%nat 0%nat H0) as (l & Hl & Hid & Hname).
  split; [intros E; rewrite E in H0; discriminate|].
  exists l. split; [|split; assumption].
  unfold objectAt, index. cbn [Z.ltb Z.compare Z.to_nat].
  change (layers s !! 0%nat ≫= (fun r => heap s !! r ≫= fun l0 => Some (r, l0))
          = Some (0%nat, l)).
  rewrite H0. cbn [mbind option_bind]. rewrite Hl. reflexivity.
Qed.

Lemma first_layer_stays_witness :
  layers restoredAfterAdding <> []
  /\ exists l, objectAt restoredAfterAdding (layers restoredAfterAdding) 0
               = Some (0%nat, l)
               /\ id l = 1%nat /\ name l = "Layer 1".
Proof.
  exact (first_layer_stays 300 150 0 0 restoredAfterAdding
           reachable_restoredAfterAdding).
Defined.

(** ** What each handler leaves alone *)

Lemma undo_keeps (s s' : State) :
  after (undo s) = Some s' ->
  canvas s' = canvas s /\ ctx s' = ctx s /\ isDrawing s' = isDrawing s
  /\ startPos s' = startPos s /\ tool s' = tool s /\ color s' = color s
  /\ brushSize s' = brushSize s /\ heap s' = heap s
  /\ activeLayer s' = activeLayer s.
Proof. unfold undo. intros H. branches H; repeat split. Qed.

Lemma redo_keeps (s s' : State) :
  after (redo s) = Some s' ->
  canvas s' = canvas s /\ ctx s' = ctx s /\ isDrawing s' = isDrawing s
  /\ startPos s' = startPos s /\ tool s' = tool s /\ color s' = color s
  /\ brushSize s' = brushSize s /\ heap s' = heap s
  /\ activeLayer s' = activeLayer s.
Proof. unfold redo. intros H. branches H; repeat split. Qed.

Lemma clearCanvas_keeps (s s' : State) :
  after (clearCanvas s) = Some s' ->
  ctx s' = ctx s /\ isDrawing s' = isDrawing s
  /\ startPos s' = startPos s /\ tool s' = tool s /\ color s' = color s
  /\ brushSize s' = brushSize s /\ activeLayer s' = activeLayer s
  /\ history s' = history s /\ redoStack s' = redoStack s.
Proof. unfold clearCanvas. intros H. branches H; repeat split. Qed.

Lemma imageLoaded_keeps (i : nat) (s s' : State) :
  after (imageLoaded i s) = Some s' ->
  ctx s' = ctx s /\ isDrawing s' = isDrawing s
  /\ startPos s' = startPos s /\ tool s' = tool s /\ color s' = color s
  /\ brushSize s' = brushSize s /\ activeLayer s' = activeLayer s
  /\ history s' = history s /\ redoStack s' = redoStack s.
Proof.
  unfold imageLoaded, onload. intros H. branches H; repeat split.
Qed.

Lemma drawShape_keeps (x y ox oy : Q) (s : State) :
  tool (drawShape x y ox oy s) = tool s
  /\ color (drawShape x y ox oy s) = color s
  /\ brushSize (drawShape x y ox oy s) = brushSize s.
Proof.
  unfold drawShape.
  destruct (_ || _); [destruct (String.eqb (tool s) "rectangle")|];
    repeat split.
Qed.

Lemma endDrawing_keeps (e : option PointerEvent) (s s' : State) :
  after (endDrawing e s) = Some s' ->
  tool s' = tool s /\ color s' = color s /\ brushSize s' = brushSize s
  /\ activeLayer s' = activeLayer s
  /\ ((isDrawing s' = isDrawing s /\ startPos s' = startPos s)
      \/ (isDrawing s' = false /\ startPos s' = None)).
Proof.
  unfold endDrawing.
  destruct (isDrawing s) eqn:Hd; [|intros [= <-]; auto 10].
  destruct (startPos s) as [[x y]|] eqn:Hp; [|intros [= <-]; auto 10].
  destruct (match e with Some ev => getEventPos (Some ev) s | None => (x, y) end)
    as [ox oy].
  destruct (drawShape_keeps x y ox oy s) as (Ht & Hc & Hb).
  destruct (drawShape_sameStore x y ox oy s) as (_ & _ & Ha & _).
  destruct (drawShape_gesture x y ox oy s) as (Hd' & Hp').
  destruct (objectAt _ _ _) as [[r l]|]; intros [= <-]; simpl.
  - repeat split; auto.
  - repeat split; auto. left. split; congruence.
Qed.

Lemma render_keeps (s0 s s' : State) :
  after (render s0 s) = Some s' ->
  isDrawing s' = isDrawing s /\ startPos s' = startPos s
  /\ tool s' = tool s /\ color s' = color s /\ brushSize s' = brushSize s
  /\ activeLayer s' = activeLayer s /\ heap s' = heap s
  /\ history s' = history s /\ redoStack s' = redoStack s.
Proof.
  unfold render. destruct (activeLayer s0 =? activeLayer s)%Z.
  - destruct (_ && _); intros [= <-]; repeat split.
  - unfold effectActiveLayer, loadLayer.
    destruct (objectAt _ _ _) as [[r l]|]; [|discriminate].
    destruct (_ && _); intros [= <-]; repeat split.
Qed.

(** ** The gesture flag and the anchor *)

Lemma handle_gesture (c : Command) (s s' : State) :
  after (handle c s) = Some s' ->
  (isDrawing s' = isDrawing s /\ startPos s' = startPos s)
  \/ (isDrawing s' = true /\ exists p, startPos s' = Some p)
  \/ (isDrawing s' = false /\ startPos s' = None).
Proof.
  intros Ha. destruct c as [b | v | n | e | e | e | | i | v | i];
    cbn [handle] in Ha; try (injection Ha as <-; left; split; reflexivity).
  - unfold handleButtonClick in Ha.
    destruct (String.eqb b "undo");
      [left; destruct (undo_keeps _ _ Ha) as (_ & _ & ? & ? & _); auto|].
    destruct (String.eqb b "redo");
      [left; destruct (redo_keeps _ _ Ha) as (_ & _ & ? & ? & _); auto|].
    destruct (String.eqb b "clear");
      [left; destruct (clearCanvas_keeps _ _ Ha) as (_ & ? & ? & _); auto|].
    injection Ha as <-. left. split; reflexivity.
  - injection Ha as <-. right. left. unfold startDrawing.
    destruct (getEventPos (Some e) s). split; [reflexivity | eexists; reflexivity].
  - injection Ha as <-. left. destruct (draw_sameStore e s) as (_ & ? & ? & _).
    auto.
  - destruct (endDrawing_keeps _ _ _ Ha) as (_ & _ & _ & _ & [H | H]); auto.
  - left. destruct (imageLoaded_keeps _ _ _ Ha) as (_ & ? & ? & _). auto.
Qed.

Lemma exec_gesture (c : Command) (s s' : State) :
  after (exec c s) = Some s' ->
  (isDrawing s' = isDrawing s /\ startPos s' = startPos s)
  \/ (isDrawing s' = true /\ exists p, startPos s' = Some p)
  \/ (isDrawing s' = false /\ startPos s' = None).
Proof.
  unfold exec. destruct (handle c s) as [s1 | s1 |] eqn:Eh; [| |discriminate].
  - intros Hr. destruct (render_keeps s s1 s' Hr) as (-> & -> & _).
    apply (handle_gesture c). rewrite Eh. reflexivity.
  - intros [= <-]. apply (handle_gesture c). rewrite Eh. reflexivity.
Qed.

(** X4. In every reachable state a gesture is in progress exactly when an
    anchor is recorded: [isDrawing] is true if and only if [startPos] is
    not null.  The two tests of the guard [!isDrawing || !startPos] of
    [draw] and [endDrawing] always agree. *)
Theorem gesture_flag_and_anchor (ow oh left top : Q) (s : State) :
  reachable ow oh left top s ->
  isDrawing s = match startPos s with Some _ => true | None => false end.
Proof.
  induction 1 as [|s c s' _ IH Hs]; [reflexivity|].
  destruct (exec_gesture c s s' Hs) as [[-> ->] | [[-> [p ->]] | [-> ->]]];
    [exact IH | reflexivity | reflexivity].
Qed.

Lemma gesture_flag_and_anchor_witness :
  isDrawing restoredAfterAdding
  = match startPos restoredAfterAdding with Some _ => true | None => false end.
Proof.
  exact (gesture_flag_and_anchor 300 150 0 0 restoredAfterAdding
           reachable_restoredAfterAdding).
Defined.

(** ** What undo and redo do to any state *)

Lemma restore_result (s : State) (src : DataURL) (r : nat) (l : Layer)
    (q : list Task) :
  pending s = (q ++ [Restore src (layers s) (activeLayer s)])%list ->
  objectAt s (layers s) (activeLayer s) = Some (r, l) ->
  loads src = true ->
  imageLoaded (length q) s
  = Done (setLayers (layers s)
            (setHeap (writeData r src (heap s))
               (setCanvas
                  (drawImage (decode src)
                     (clearRect 0 0 (width (canvas s)) (height (canvas s))
                                (canvas s)))
                  (setPending q s)))).
Proof.
  intros Hq Ho Hl. unfold imageLoaded. rewrite Hq.
  rewrite list_lookup_middle by reflexivity. cbn [source]. rewrite Hl.
  rewrite delete_middle, app_nil_r. cbn [onload].
  set (s1 := setCanvas _ _).
  assert (Ho1 : objectAt s1 (layers s) (activeLayer s) = Some (r, l))
    by (rewrite <- Ho; apply objectAt_heap; reflexivity).
  rewrite Ho1. reflexivity.
Qed.

(** [undo()] and the load of its image, if it loads. *)
Lemma undo_result (s : State) (r : nat) (l : Layer) (H : list DataURL)
    (x : DataURL) :
  history s = (H ++ [x])%list ->
  objectAt s (layers s) (activeLayer s) = Some (r, l) ->
  exists s', completed undo s = Done s'
    /\ history s' = H /\ redoStack s' = data l :: redoStack s
    /\ layers s' = layers s /\ activeLayer s' = activeLayer s
    /\ (forall p, inBounds (canvas s') p = inBounds (canvas s) p)
    /\ (loads (orEmpty (last H)) = true ->
        heap s' = writeData r (orEmpty (last H)) (heap s)
        /\ pending s' = pending s
        /\ forall p, pixelAt (canvas s') p
                     = if inBounds (canvas s) p
                       then imagePixels (decode (orEmpty (last H))) p
                       else None)
    /\ (loads (orEmpty (last H)) = false ->
        heap s' = heap s /\ canvas s' = canvas s).
Proof.
  intros Hh Ho. unfold completed, undo. rewrite Hh, length_app. simpl length.
  replace (length H + 1 =? 0)%nat with false
    by (symmetry; apply Nat.eqb_neq; lia).
  replace (length H + 1 - 1)%nat with (length H) by lia.
  rewrite take_app_length, Ho. cbn [andThen].
  set (s1 := setPending _ _).
  destruct (loads (orEmpty (last H))) eqn:Hl.
  - rewrite (restore_result s1 (orEmpty (last H)) r l (pending s));
      [|reflexivity | exact Ho | exact Hl].
    eexists. split; [reflexivity|]. do 4 (split; [reflexivity|]).
    split; [intros p; apply inBounds_restore|].
    split; [|discriminate].
    intros _. do 2 (split; [reflexivity|]). intros p. apply pixelAt_restore.
  - rewrite (restore_ignored s1 (Restore (orEmpty (last H)) (layers s)
                                         (activeLayer s)) (pending s));
      [|reflexivity | exact Hl].
    eexists. split; [reflexivity|]. do 4 (split; [reflexivity|]).
    split; [reflexivity|]. split; [discriminate|].
    intros _. split; reflexivity.
Qed.

(** [redo()] and the load of its image, if it loads. *)
Lemma redo_result (s : State) (r : nat) (l : Layer) (x : DataURL)
    (R : list DataURL) :
  redoStack s = x :: R ->
  objectAt s (layers s) (activeLayer s) = Some (r, l) ->
  exists s', completed redo s = Done s'
    /\ history s' = (history s ++ [x])%list /\ redoStack s' = R
    /\ layers s' = layers s /\ activeLayer s' = activeLayer s
    /\ (forall p, inBounds (canvas s') p = inBounds (canvas s) p)
    /\ (loads x = true ->
        heap s' = writeData r x (heap s)
        /\ pending s' = pending s
        /\ forall p, pixelAt (canvas s') p
                     = if inBounds (canvas s) p
                       then imagePixels (decode x) p else None)
    /\ (loads x = false -> heap s' = heap s /\ canvas s' = canvas s).
Proof.
  intros Hr Ho. unfold completed, redo. rewrite Hr. cbn [andThen].
  set (s1 := setPending _ _).
  destruct (loads x) eqn:Hl.
  - rewrite (restore_result s1 x r l (pending s));
      [|reflexivity | exact Ho | exact Hl].
    eexists. split; [reflexivity|]. do 4 (split; [reflexivity|]).
    split; [intros p; apply inBounds_restore|].
    split; [|discriminate].
    intros _. do 2 (split; [reflexivity|]). intros p. apply pixelAt_restore.
  - rewrite (restore_ignored s1 (Restore x (layers s) (activeLayer s))
               (pending s)); [|reflexivity | exact Hl].
    eexists. split; [reflexivity|]. do 4 (split; [reflexivity|]).
    split; [reflexivity|]. split; [discriminate|].
    intros _. split; reflexivity.
Qed.

(** X5. What [undo()] does to any state with a non-empty Undo Stack and an
    active layer: the top entry is removed without being looked at, and
    the entry put on the Redo Stack is the active layer's data; the layer
    sequence, the active index and the other layer objects stay.  When
    the new top is an image, it is shown on the surface and written to the
    active layer once it has loaded, whichever layer it was recorded on.
    When no entry is left (or the new top is the empty string) the image
    [undo()] creates never loads: the surface and the active layer keep
    what they had. *)
Theorem undo_effect (s : State) (r : nat) (l : Layer) (H : list DataURL)
    (x : DataURL) :
  history s = (H ++ [x])%list ->
  objectAt s (layers s) (activeLayer s) = Some (r, l) ->
  exists s', completed undo s = Done s'
    /\ history s' = H /\ redoStack s' = data l :: redoStack s
    /\ layers s' = layers s /\ activeLayer s' = activeLayer s
    /\ (forall r', r' <> r -> heap s' !! r' = heap s !! r')
    /\ (loads (orEmpty (last H)) = true ->
        heap s' !! r = Some (mkLayer (id l) (name l) (orEmpty (last H)))
        /\ pending s' = pending s
        /\ forall p, pixelAt (canvas s') p
                     = if inBounds (canvas s) p
                       then imagePixels (decode (orEmpty (last H))) p
                       else None)
    /\ (loads (orEmpty (last H)) = false ->
        heap s' = heap s /\ canvas s' = canvas s).
Proof.
  intros Hh Ho.
  destruct (undo_result s r l H x Hh Ho)
    as (s' & E & H1 & H2 & H3 & H4 & _ & Hyes & Hno).
  destruct (objectAt_lookup _ _ _ _ _ Ho) as [_ Hl].
  exists s'. split; [exact E|]. do 4 (split; [assumption|]).
  split; [|split; [|exact Hno]].
  - intros r' Hne. destruct (loads (orEmpty (last H))).
    + destruct (Hyes eq_refl) as (-> & _).
      apply list_lookup_alter_ne. congruence.
    + destruct (Hno eq_refl) as (-> & _). reflexivity.
  - intros Hld. destruct (Hyes Hld) as (Hw & Hp & Hpix).
    split; [|split; assumption].
    rewrite Hw. unfold writeData.
    rewrite list_lookup_alter, decide_True by reflexivity.
    rewrite Hl. reflexivity.
Qed.

Lemma writeData_same (r : nat) (l : Layer) (v : DataURL) (h : list Layer) :
  h !! r = Some l -> writeData r (data l) (writeData r v h) = h.
Proof.
  intros Hl. unfold writeData. apply list_eq. intros i.
  rewrite !list_lookup_alter.
  destruct (decide (r = i)) as [<-|]; [|reflexivity].
  rewrite decide_True by reflexivity. rewrite Hl. destruct l. reflexivity.
Qed.

Lemma writeData_id (r : nat) (l : Layer) (h : list Layer) :
  h !! r = Some l -> writeData r (data l) h = h.
Proof.
  intros Hl. unfold writeData. apply list_eq. intros i.
  rewrite list_lookup_alter.
  destruct (decide (r = i)) as [<-|]; [|reflexivity].
  rewrite Hl. destruct l. reflexivity.
Qed.

(** X6. [undo()] and then [redo()], each followed by the load of its image
    if it loads, on any state with a non-empty Undo Stack and an active
    layer.  The Redo Stack is as before, and the top of the Undo Stack is
    now the active layer's data, not the entry that was there.  When that
    data is an image, the layer objects are as before and the surface
    shows the data.  When it is the empty string (as after
    [clearCanvas]), the image of [redo()] never loads: the layer and the
    surface keep what [undo()] restored, the entry below the old top,
    while the Undo Stack ends with the empty string. *)
Theorem undo_then_redo (s : State) (r : nat) (l : Layer) (H : list DataURL)
    (x : DataURL) :
  history s = (H ++ [x])%list ->
  objectAt s (layers s) (activeLayer s) = Some (r, l) ->
  exists s', andThen (completed undo s) (completed redo) = Done s'
    /\ history s' = (H ++ [data l])%list
    /\ redoStack s' = redoStack s
    /\ layers s' = layers s /\ activeLayer s' = activeLayer s
    /\ (loads (data l) = true ->
        heap s' = heap s
        /\ forall p, pixelAt (canvas s') p
                     = if inBounds (canvas s) p
                       then imagePixels (decode (data l)) p else None)
    /\ (loads (data l) = false -> loads (orEmpty (last H)) = true ->
        heap s' !! r = Some (mkLayer (id l) (name l) (orEmpty (last H)))
        /\ forall p, pixelAt (canvas s') p
                     = if inBounds (canvas s) p
                       then imagePixels (decode (orEmpty (last H))) p
                       else None)
    /\ (loads (data l) = false -> loads (orEmpty (last H)) = false ->
        heap s' = heap s /\ canvas s' = canvas s).
Proof.
  intros Hh Ho.
  destruct (objectAt_lookup _ _ _ _ _ Ho) as [_ Hl].
  destruct (undo_result s r l H x Hh Ho)
    as (s1 & E1 & A1 & A2 & A3 & A4 & A5 & Ayes & Ano).
  assert (Ho1 : exists l1, objectAt s1 (layers s1) (activeLayer s1) = Some (r, l1)).
  { destruct (loads (orEmpty (last H))).
    - destruct (Ayes eq_refl) as (Hw & _). eexists. rewrite A3, A4.
      eapply objectAt_writeData; [exact Ho | exact Hw].
    - destruct (Ano eq_refl) as (Hw & _). exists l. rewrite A3, A4, <- Ho.
      apply objectAt_heap. exact Hw. }
  destruct Ho1 as (l1 & Ho1).
  destruct (redo_result s1 r l1 (data l) (redoStack s) A2 Ho1)
    as (s2 & E2 & B1 & B2 & B3 & B4 & B5 & Byes & Bno).
  exists s2. rewrite E1. cbn [andThen]. split; [exact E2|].
  split; [rewrite B1, A1; reflexivity|]. split; [exact B2|].
  split; [congruence|]. split; [congruence|].
  split; [|split].
  - intros Hd. destruct (Byes Hd) as (Hw & _ & Hpix).
    split; [|intros p; rewrite Hpix, A5; reflexivity].
    rewrite Hw. destruct (loads (orEmpty (last H))).
    + destruct (Ayes eq_refl) as (-> & _). apply writeData_same, Hl.
    + destruct (Ano eq_refl) as (-> & _). apply writeData_id, Hl.
  - intros Hd Ht. destruct (Bno Hd) as (Hw & Hc).
    destruct (Ayes Ht) as (Hw1 & _ & Hpix).
    split; [|intros p; rewrite Hc; apply Hpix].
    rewrite Hw, Hw1. unfold writeData.
    rewrite list_lookup_alter, decide_True by reflexivity.
    rewrite Hl. reflexivity.
  - intros Hd Ht. destruct (Bno Hd) as (Hw & Hc).
    destruct (Ano Ht) as (Hw1 & Hc1). split; congruence.
Qed.

Lemma undo_effect_witness :
  (exists s', completed undo afterLineAndBox = Done s'
              /\ layers s' = layers afterLineAndBox
              /\ pending s' = pending afterLineAndBox
              /\ pixelAt (canvas s') (120, 40)%Q = None
              /\ pixelAt (canvas s') (30, 10)%Q = Some "#000000")
  /\ exists s', completed undo afterLine = Done s'
                /\ history s' = []
                /\ canvas s' = canvas afterLine.
Proof.
  split.
  - assert (Hh : match history afterLineAndBox with
                 | [a; _] => loads a | _ => false end = true)
      by (vm_compute; reflexivity).
    assert (P1 : match history afterLineAndBox with
                 | [a; _] => imagePixels (decode a) (120, 40)%Q
                 | _ => Some "" end = None)
      by (vm_compute; reflexivity).
    assert (P2 : match history afterLineAndBox with
                 | [a; _] => imagePixels (decode a) (30, 10)%Q
                 | _ => None end = Some "#000000")
      by (vm_compute; reflexivity).
    assert (B1 : inBounds (canvas afterLineAndBox) (120, 40)%Q = true)
      by (vm_compute; reflexivity).
    assert (B2 : inBounds (canvas afterLineAndBox) (30, 10)%Q = true)
      by (vm_compute; reflexivity).
    assert (Ho : match objectAt afterLineAndBox (layers afterLineAndBox)
                         (activeLayer afterLineAndBox) with
                 | Some _ => true | None => false end = true)
      by (vm_compute; reflexivity).
    destruct (history afterLineAndBox) as [|a [|b [|c hs]]] eqn:Eh;
      try discriminate Hh.
    destruct (objectAt afterLineAndBox (layers afterLineAndBox)
                (activeLayer afterLineAndBox)) as [[r l]|] eqn:Eo;
      [|discriminate Ho].
    destruct (undo_effect afterLineAndBox r l [a] b Eh Eo)
      as (s' & Hu & _ & _ & Hl & _ & _ & Hyes & _).
    cbn [last] in Hyes. rewrite orEmpty_Some in Hyes.
    destruct (Hyes Hh) as (_ & Hp & Hpix).
    exists s'. split; [exact Hu|]. split; [exact Hl|]. split; [exact Hp|].
    split; [rewrite Hpix, B1; exact P1 | rewrite Hpix, B2; exact P2].
  - assert (Hh : match history afterLine with
                 | [_] => true | _ => false end = true)
      by (vm_compute; reflexivity).
    assert (Ho : match objectAt afterLine (layers afterLine)
                         (activeLayer afterLine) with
                 | Some _ => true | None => false end = true)
      by (vm_compute; reflexivity).
    destruct (history afterLine) as [|a [|b hs]] eqn:Eh; try discriminate Hh.
    destruct (objectAt afterLine (layers afterLine) (activeLayer afterLine))
      as [[r l]|] eqn:Eo; [|discriminate Ho].
    destruct (undo_effect afterLine r l [] a Eh Eo)
      as (s' & Hu & Hn & _ & _ & _ & _ & _ & Hno).
    destruct (Hno eq_refl) as (_ & Hc).
    exists s'. split; [exact Hu|]. split; [exact Hn | exact Hc].
Defined.

Lemma undo_then_redo_witness :
  exists s', andThen (completed undo cleared) (completed redo) = Done s'
             /\ pixelAt (canvas cleared) (30, 10)%Q = None
             /\ pixelAt (canvas s') (30, 10)%Q = Some "#000000"
             /\ redoStack s' = redoStack cleared.
Proof.
  assert (Hh : match history cleared with
               | [a; _] => loads a | _ => false end = true)
    by (vm_compute; reflexivity).
  assert (P2 : match history cleared with
               | [a; _] => imagePixels (decode a) (30, 10)%Q
               | _ => None end = Some "#000000")
    by (vm_compute; reflexivity).
  assert (B2 : inBounds (canvas cleared) (30, 10)%Q = true)
    by (vm_compute; reflexivity).
  assert (Ho : match objectAt cleared (layers cleared) (activeLayer cleared) with
               | Some (_, l) => negb (loads (data l)) | None => false end = true)
    by (vm_compute; reflexivity).
  assert (Hc : pixelAt (canvas cleared) (30, 10)%Q = None)
    by (vm_compute; reflexivity).
  destruct (history cleared) as [|a [|b [|c hs]]] eqn:Eh; try discriminate Hh.
  destruct (objectAt cleared (layers cleared) (activeLayer cleared))
    as [[r l]|] eqn:Eo; [|discriminate Ho].
  apply negb_true_iff in Ho.
  destruct (undo_then_redo cleared r l [a] b Eh Eo)
    as (s' & Hu & _ & Hr & _ & _ & _ & Hmid & _).
  cbn [last] in Hmid. rewrite orEmpty_Some in Hmid.
  destruct (Hmid Ho Hh) as (_ & Hpix).
  exists s'. split; [exact Hu|]. split; [exact Hc|].
  split; [rewrite Hpix, B2; exact P2 | exact Hr].
Defined.

(** ** Switching layers *)

(** X7. A click on a layer other than the active one, at a position that
    names a layer: the active index becomes that position; the surface is
    empty at once and the context is back to its defaults with round
    caps, so the colour and the size are not in the context until the
    next press or move puts them there; the load of the layer's data is
    queued, and when it completes the surface shows that data (a layer
    whose data is the empty string has nothing to show, and its image
    never loads).  Layers, both stacks and a gesture in progress are
    untouched.  A click on the active layer does nothing. *)
Theorem click_layer_loads (i : Z) (s : State) (r : nat) (l : Layer) :
  i <> activeLayer s ->
  objectAt s (layers s) i = Some (r, l) ->
  exec (ClickLayer (activeLayer s)) s = Done s
  /\ exists s', exec (ClickLayer i) s = Done s'
       /\ activeLayer s' = i
       /\ (forall p, pixelAt (canvas s') p = None)
       /\ ctx s' = setLineCap "round" defaultContext
       /\ pending s' = (pending s ++ [LoadLayer (data l)])%list
       /\ heap s' = heap s /\ layers s' = layers s
       /\ history s' = history s /\ redoStack s' = redoStack s
       /\ isDrawing s' = isDrawing s /\ startPos s' = startPos s
       /\ exists s'', imageLoaded (length (pending s)) s' = Done s''
            /\ forall p, pixelAt (canvas s'') p
                         = if inBounds (canvas s') p
                           then imagePixels (decode (data l)) p else None.
Proof.
  intros Hne Ho. split.
  - unfold exec. cbn [handle].
    replace (selectLayer (activeLayer s) s) with s by (destruct s; reflexivity).
    apply render_unchanged; reflexivity.
  - unfold exec. cbn [handle]. unfold render.
    cbn [selectLayer setActiveLayer activeLayer color brushSize].
    replace (activeLayer s =? i)%Z with false
      by (symmetry; apply Z.eqb_neq; congruence).
    rewrite String.eqb_refl, Qeq_bool_refl. cbn [andb].
    unfold effectActiveLayer, loadLayer.
    set (s1 := setCtx _ _).
    assert (Ho1 : objectAt s1 (layers s1) (activeLayer s1) = Some (r, l))
      by (rewrite <- Ho; apply objectAt_heap; reflexivity).
    rewrite Ho1. eexists. split; [reflexivity|].
    split; [reflexivity|].
    split; [intros p; unfold pixelAt; cbn;
            destruct (inBounds _ p); reflexivity|].
    do 8 (split; [reflexivity|]).
    unfold imageLoaded.
    cbn [pending setPending s1 setCtx setCanvas].
    rewrite list_lookup_middle by reflexivity. cbn [source].
    destruct (loads (data l)) eqn:Hl.
    + rewrite delete_middle, app_nil_r. cbn [onload].
      eexists. split; [reflexivity|].
      intros p. cbn [canvas setCanvas setPending setCtx s1].
      apply pixelAt_restore.
    + eexists. split; [reflexivity|].
      intros p. rewrite (decode_not_loads _ p Hl).
      unfold pixelAt. cbn. destruct (inBounds _ p); reflexivity.
Qed.

Lemma click_layer_loads_witness :
  exists s', exec (ClickLayer 1) addedWhileRestoring = Done s'
             /\ activeLayer s' = 1%Z
             /\ forall p, pixelAt (canvas s') p = None.
Proof.
  assert (Ho : match objectAt addedWhileRestoring (layers addedWhileRestoring) 1
               with Some _ => true | None => false end = true)
    by (vm_compute; reflexivity).
  destruct (objectAt addedWhileRestoring (layers addedWhileRestoring) 1)
    as [[r l]|] eqn:Eo; [|discriminate Ho].
  destruct (click_layer_loads 1 addedWhileRestoring r l) as [_ (s' & He & Ha & Hb & _)].
  - intros E. vm_compute in E. discriminate E.
  - exact Eo.
  - exists s'. split; [exact He|]. split; [exact Ha | exact Hb].
Defined.

(** ** Snapshots *)

(** X8. A snapshot comes back exactly: when the image of
    [canvas.toDataURL()] loads on a canvas of the same size, the [onload]
    of [loadLayer] leaves on the surface the very pixels of the canvas the
    snapshot was taken of, whatever the surface showed before. *)
Theorem snapshot_comes_back (cv : Canvas) (s : State) :
  width (canvas s) = width cv -> height (canvas s) = height cv ->
  exists s', onload (LoadLayer (toDataURL cv)) s = Done s'
             /\ forall p, pixelAt (canvas s') p = pixelAt cv p.
Proof.
  intros Hw Hh. eexists. split; [reflexivity|]. intros p.
  cbn [canvas setCanvas]. rewrite pixelAt_restore.
  replace (inBounds (canvas s) p) with (inBounds cv p)
    by (unfold inBounds; rewrite Hw, Hh; reflexivity).
  apply pixelAt_toDataURL.
Qed.

Lemma snapshot_comes_back_witness :
  exists s', onload (LoadLayer (toDataURL (canvas afterLine))) undoneTwice = Done s'
             /\ forall p, pixelAt (canvas s') p = pixelAt (canvas afterLine) p.
Proof.
  apply snapshot_comes_back; vm_compute; reflexivity.
Defined.

(** ** Pointer events *)

Lemma handlers_read_position (e1 e2 : PointerEvent) (s : State) :
  getEventPos (Some e1) s = getEventPos (Some e2) s ->
  startDrawing e1 s = startDrawing e2 s
  /\ draw e1 s = draw e2 s
  /\ endDrawing (Some e1) s = endDrawing (Some e2) s.
Proof.
  intros H. unfold startDrawing, draw, endDrawing. rewrite H.
  repeat split.
Qed.

(** X9. Mouse and touch are one input.  A touch event acts as the mouse
    event at the client position of its first touch, and a touch event
    without touches (a touch end) as the mouse event at the position of
    its first changed touch: press, move and release give the same state.
    A touch event with neither touches nor changed touches releases at the
    anchor, as [endDrawing()] without an event does. *)
Theorem touch_acts_as_mouse (x y : Q) (ts cs : list point) (s : State) :
  (startDrawing (TouchEvent ((x, y) :: ts) cs) s = startDrawing (MouseEvent x y) s
   /\ draw (TouchEvent ((x, y) :: ts) cs) s = draw (MouseEvent x y) s
   /\ endDrawing (Some (TouchEvent ((x, y) :: ts) cs)) s
      = endDrawing (Some (MouseEvent x y)) s)
  /\ (startDrawing (TouchEvent [] ((x, y) :: cs)) s = startDrawing (MouseEvent x y) s
      /\ draw (TouchEvent [] ((x, y) :: cs)) s = draw (MouseEvent x y) s
      /\ endDrawing (Some (TouchEvent [] ((x, y) :: cs))) s
         = endDrawing (Some (MouseEvent x y)) s)
  /\ endDrawing (Some (TouchEvent [] [])) s = endDrawing None s.
Proof.
  split; [apply handlers_read_position; reflexivity|].
  split; [apply handlers_read_position; reflexivity|].
  unfold endDrawing. destruct (isDrawing s); [|reflexivity].
  destruct (startPos s) as [[ax ay]|] eqn:Hp; [|reflexivity].
  cbn [getEventPos]. rewrite Hp. reflexivity.
Qed.

(** X10. Between gestures pointer moves and releases do nothing.  After a
    release that commits, the component is idle: any further move or
    release (the [mouseleave] that follows a [mouseup], the mouse moving
    over the canvas with no button down) returns the state as it is, and
    so it stays until the next press. *)
Theorem idle_after_release (e : PointerEvent) (s s' : State) (p : point) :
  isDrawing s = true -> startPos s = Some p ->
  exec (PointerUp e) s = Done s' ->
  isDrawing s' = false
  /\ forall e', exec (PointerMove e') s' = Done s'
                /\ exec (PointerUp e') s' = Done s'.
Proof.
  intros Hd Hp He.
  assert (Hidle : isDrawing s' = false).
  { unfold exec in He. cbn [handle] in He.
    destruct (endDrawing (Some e) s) as [s1 | s1 |] eqn:E; [|discriminate..].
    assert (Hr : after (render s s1) = Some s') by (rewrite He; reflexivity).
    destruct (render_keeps s s1 s' Hr) as (-> & _).
    unfold endDrawing in E. rewrite Hd, Hp in E. destruct p as [x y].
    destruct (getEventPos (Some e) s) as [ox oy].
    destruct (objectAt _ _ _) as [[r l]|]; [|discriminate].
    injection E as <-. reflexivity. }
  split; [exact Hidle|]. intros e'.
  assert (Hm : draw e' s' = s') by (unfold draw; rewrite Hidle; reflexivity).
  assert (Hu : endDrawing (Some e') s' = Done s')
    by (unfold endDrawing; rewrite Hidle; reflexivity).
  unfold exec. cbn [handle]. rewrite Hm, Hu.
  split; apply render_unchanged; reflexivity.
Qed.

Lemma idle_after_release_witness :
  isDrawing (outcomeState (exec (PointerUp (MouseEvent 60 60)) pressedAfterUndo))
  = false.
Proof.
  assert (Hp : match startPos pressedAfterUndo with
               | Some _ => true | None => false end = true)
    by (vm_compute; reflexivity).
  destruct (startPos pressedAfterUndo) as [p|] eqn:Ep; [|discriminate Hp].
  apply (idle_after_release (MouseEvent 60 60) pressedAfterUndo _ p).
  - vm_compute. reflexivity.
  - exact Ep.
  - apply isDone_outcomeState. vm_compute. reflexivity.
Defined.

(** ** The brush *)





Lemma brush_press_begins_path (e : PointerEvent) (s : State) :
  tool s = "brush" ->
  path (ctx (startDrawing e s)) = [MoveTo (getEventPos (Some e) s)].
Proof.
  intros Ht. unfold startDrawing. destruct (getEventPos (Some e) s) as [x y].
  rewrite Ht. reflexivity.
Qed.



(** ** The eraser, move after move *)






(** ** When the active index names no layer *)



(** ** What the page can reach *)

Lemma reachableUI_runOffered (ow oh left top : Q) (cs : list Command)
    (s s' : State) :
  reachableUI ow oh left top s -> runOffered cs s = Some s' ->
  reachableUI ow oh left top s'.
Proof.
  revert s. induction cs as [|c cs IH]; intros s Hr Hrun.
  - injection Hrun as <-. exact Hr.
  - cbn [runOffered] in Hrun.
    destruct (offered s c) eqn:Eo; [|discriminate].
    destruct (exec c s) as [s1 | s1 |] eqn:E; [|discriminate..].
    apply (IH s1); [|exact Hrun].
    apply (reachableUI_exec _ _ _ _ s c s1 Hr Eo). rewrite E. reflexivity.
Qed.

(** X14. The page does not keep the active index in the layer sequence.
    With nothing but what the page offers (two strokes, undo, add a layer,
    select it) and the image of the restore loading last, the component
    reaches a state with one layer and active index 1: [undo]'s closure
    has put back the one-element array it captured.  From there the next
    release, [clearCanvas] and [undo] throw. *)
Theorem active_index_can_dangle :
  exists s, runOffered raceTrace fresh = Some s
            /\ reachableUI 300 150 0 0 s
            /\ activeLayer s = 1%Z /\ length (layers s) = 1%nat
            /\ objectAt s (layers s) (activeLayer s) = None.
Proof.
  assert (Hsome : match runOffered raceTrace fresh with
                  | Some _ => true | None => false end = true)
    by (vm_compute; reflexivity).
  assert (Ha : (activeLayer <$> runOffered raceTrace fresh) = Some 1%Z)
    by (vm_compute; reflexivity).
  assert (Hl : ((fun s => length (layers s)) <$> runOffered raceTrace fresh)
               = Some 1%nat) by (vm_compute; reflexivity).
  assert (Ho : ((fun s => match objectAt s (layers s) (activeLayer s) with
                          | Some _ => true | None => false end)
                <$> runOffered raceTrace fresh) = Some false)
    by (vm_compute; reflexivity).
  destruct (runOffered raceTrace fresh) as [s|] eqn:E; [|discriminate Hsome].
  exists s. split; [reflexivity|]. split.
  - apply (reachableUI_runOffered _ _ _ _ raceTrace fresh);
      [unfold fresh; apply reachableUI_mounted | exact E].
  - cbn [fmap option_fmap option_map] in Ha, Hl, Ho.
    injection Ha as Ha. injection Hl as Hl. injection Ho as Ho.
    split; [exact Ha|]. split; [exact Hl|].
    destruct (objectAt s (layers s) (activeLayer s)); [discriminate Ho | reflexivity].
Qed.

(** ** A click with a shape tool *)

(** X15. A rectangle gesture released where it was pressed draws nothing
    ([strokeRect] of a zero by zero rectangle) and is recorded all the
    same: the canvas is unchanged, its snapshot is appended to the Undo
    Stack, and the Redo Stack is emptied. *)
Theorem rectangle_click_is_recorded (e : PointerEvent) (s : State) (x y : Q)
    (r : nat) (l : Layer) :
  tool s = "rectangle" -> isDrawing s = true -> startPos s = Some (x, y) ->
  getEventPos (Some e) s = (x, y) ->
  objectAt s (layers s) (activeLayer s) = Some (r, l) ->
  exists s', endDrawing (Some e) s = Done s'
    /\ canvas s' = canvas s
    /\ history s' = (history s ++ [toDataURL (canvas s)])%list
    /\ redoStack s' = [] /\ isDrawing s' = false.
Proof.
  intros Ht Hd Hp He Ho.
  assert (Hs : drawShape x y x y s
               = setCanvas (canvas s)
                   (setCtx (beginPath (setLineWidth (brushSize s)
                                         (setStrokeStyle (color s) (ctx s)))) s)).
  { unfold drawShape. rewrite Ht. cbn [String.eqb Ascii.eqb Bool.eqb orb].
    unfold strokeRect.
    assert (Hz : forall a : Q, Qeq_bool (a - a) 0 = true)
      by (intros a; apply Qeq_bool_iff; ring).
    rewrite !Hz. reflexivity. }
  unfold endDrawing. rewrite Hd, Hp, He, Hs.
  set (s1 := setCanvas _ _).
  assert (Ho1 : objectAt s1 (layers s1) (activeLayer s1) = Some (r, l))
    by (rewrite <- Ho; apply objectAt_heap; reflexivity).
  rewrite Ho1. eexists. split; [reflexivity|]. repeat split.
Qed.

Lemma rectangle_click_is_recorded_witness :
  exists s', endDrawing (Some (MouseEvent 0 0)) rectanglePressed = Done s'
             /\ canvas s' = canvas rectanglePressed /\ redoStack s' = [].
Proof.
  assert (Ho : match objectAt rectanglePressed (layers rectanglePressed)
                       (activeLayer rectanglePressed) with
               | Some _ => true | None => false end = true)
    by (vm_compute; reflexivity).
  destruct (objectAt rectanglePressed (layers rectanglePressed)
              (activeLayer rectanglePressed)) as [[r l]|] eqn:Eo;
    [|discriminate Ho].
  destruct (rectangle_click_is_recorded (MouseEvent 0 0) rectanglePressed
              (0 - 0) (0 - 0) r l) as (s' & He & Hc & _ & Hr & _);
    [vm_compute; reflexivity | vm_compute; reflexivity | reflexivity
    | reflexivity | exact Eo |].
  exists s'. split; [exact He|]. split; [exact Hc | exact Hr].
Defined.

(** ** The drawing configuration *)

Lemma handle_config (c : Command) (s s' : State) :
  after (handle c s) = Some s' ->
  tool s' = match c with
            | Click b =>
                if String.eqb b "undo" || String.eqb b "redo"
                   || String.eqb b "clear" then tool s else b
            | _ => tool s
            end
  /\ color s' = match c with PickColor v => v | _ => color s end
  /\ brushSize s' = match c with SlideBrushSize n => n | _ => brushSize s end.
Proof.
  intros Ha. destruct c as [b | v | n | e | e | e | | i | v | i];
    cbn [handle] in Ha; try (injection Ha as <-; repeat split).
  - unfold handleButtonClick in Ha.
    destruct (String.eqb b "undo");
      [destruct (undo_keeps _ _ Ha) as (_ & _ & _ & _ & ? & ? & ? & _); auto|].
    destruct (String.eqb b "redo");
      [destruct (redo_keeps _ _ Ha) as (_ & _ & _ & _ & ? & ? & ? & _); auto|].
    destruct (String.eqb b "clear");
      [destruct (clearCanvas_keeps _ _ Ha) as (_ & _ & _ & ? & ? & ? & _); auto|].
    injection Ha as <-. repeat split.
  - unfold startDrawing. destruct (getEventPos (Some e) s). reflexivity.
  - unfold startDrawing. destruct (getEventPos (Some e) s). reflexivity.
  - unfold startDrawing. destruct (getEventPos (Some e) s). reflexivity.
  - unfold draw. destruct (isDrawing s), (startPos s); try reflexivity.
    destruct (getEventPos (Some e) s).
    destruct (String.eqb (tool s) "brush");
      [|destruct (String.eqb (tool s) "eraser")]; reflexivity.
  - apply (draw_sameStore e s).
  - apply (draw_sameStore e s).
  - destruct (endDrawing_keeps _ _ _ Ha) as (? & ? & ? & _). auto.
  - destruct (imageLoaded_keeps _ _ _ Ha) as (_ & _ & _ & ? & ? & ? & _). auto.
Qed.

Lemma exec_config (c : Command) (s s' : State) :
  after (exec c s) = Some s' ->
  tool s' = match c with
            | Click b =>
                if String.eqb b "undo" || String.eqb b "redo"
                   || String.eqb b "clear" then tool s else b
            | _ => tool s
            end
  /\ color s' = match c with PickColor v => v | _ => color s end
  /\ brushSize s' = match c with SlideBrushSize n => n | _ => brushSize s end.
Proof.
  unfold exec. destruct (handle c s) as [s1 | s1 |] eqn:Eh; [| |discriminate].
  - intros Hr. destruct (render_keeps s s1 s' Hr) as (_ & _ & -> & -> & -> & _).
    apply handle_config. rewrite Eh. reflexivity.
  - intros [= <-]. apply handle_config. rewrite Eh. reflexivity.
Qed.

Lemma existsb_eqb_In (b : string) (l : list string) :
  existsb (String.eqb b) l = true -> In b l.
Proof.
  intros H. apply existsb_exists in H as (x & Hin & Hx).
  apply String.eqb_eq in Hx. subst. exact Hin.
Qed.

(** X16. Whatever the user does on the page, the tool is one of [tools],
    the colour one of [colors], and the brush size lies between 1 and
    [maxBrushSize]; in particular the size is positive, as the eraser and
    the line width need it. *)
Theorem configuration_in_range (ow oh left top : Q) (s : State) :
  reachableUI ow oh left top s ->
  In (tool s) tools /\ In (color s) colors
  /\ (1 <= brushSize s <= maxBrushSize)%Q.
Proof.
  induction 1 as [|s c s' _ (IHt & IHc & IHb) Ho Hs].
  - split; [left; reflexivity|]. split; [left; reflexivity|].
    unfold maxBrushSize. cbn. split; [discriminate | discriminate].
  - destruct (exec_config c s s' Hs) as (-> & -> & ->).
    destruct c as [b | v | n | e | e | e | | i | v | i];
      try (split; [exact IHt | split; [exact IHc | exact IHb]]).
    + split; [|split; [exact IHc | exact IHb]].
      cbn [offered] in Ho. apply existsb_eqb_In in Ho.
      destruct (String.eqb b "undo") eqn:E1; [exact IHt|].
      destruct (String.eqb b "redo") eqn:E2; [exact IHt|].
      destruct (String.eqb b "clear") eqn:E3; [exact IHt|].
      cbn [orb]. apply in_app_or in Ho as [Ho | Ho]; [exact Ho|].
      exfalso. destruct Ho as [<- | [<- | [<- | []]]]; discriminate.
    + split; [exact IHt|]. split; [|exact IHb].
      cbn [offered] in Ho. apply existsb_eqb_In, Ho.
    + split; [exact IHt|]. split; [exact IHc|].
      cbn [offered] in Ho. apply andb_true_iff in Ho as [H1 H2].
      apply Qle_bool_iff in H1, H2. split; assumption.
Qed.

Lemma reachableUI_dangling : reachableUI 300 150 0 0 dangling.
Proof.
  assert (Hsome : match runOffered raceTrace fresh with
                  | Some _ => true | None => false end = true)
    by (vm_compute; reflexivity).
  assert (Hd : isDone (run raceTrace fresh) = true) by (vm_compute; reflexivity).
  destruct (runOffered raceTrace fresh) as [s|] eqn:E; [|discriminate Hsome].
  assert (Hs : forall cs s0 s1, runOffered cs s0 = Some s1 -> run cs s0 = Done s1).
  { induction cs as [|c cs IH]; intros s0 s1 H.
    - injection H as <-. reflexivity.
    - cbn [runOffered run] in *. destruct (offered s0 c); [|discriminate].
      destruct (exec c s0); [|discriminate..]. cbn [andThen]. apply IH, H. }
  replace dangling with s
    by (unfold dangling; rewrite (Hs _ _ _ E); reflexivity).
  apply (reachableUI_runOffered _ _ _ _ raceTrace fresh);
    [unfold fresh; apply reachableUI_mounted | exact E].
Qed.

Lemma configuration_in_range_witness :
  In (tool dangling) tools /\ In (color dangling) colors
  /\ (1 <= brushSize dangling <= maxBrushSize)%Q.
Proof.
  exact (configuration_in_range 300 150 0 0 dangling reachableUI_dangling).
Defined.

(** ** Adding layers *)


(** ** The earlier version *)

(** X18. Picking another colour.  In the earlier version the one effect
    runs: the canvas is resized, so the surface is empty and the context
    has lost its path, and the active layer's data is loaded again; what
    a stroke in progress has painted is gone from the surface.  In the
    current version the canvas is not touched and nothing is loaded.  In
    both the context's stroke style is the new colour. *)
Theorem colour_change_then_and_now (v : string) (s : State) (r : nat)
    (l : Layer) :
  String.eqb (color s) v = false ->
  objectAt s (layers s) (activeLayer s) = Some (r, l) ->
  (exists s', Legacy.exec (Legacy.PickColor v) s = Done s'
     /\ (forall p, pixelAt (canvas s') p = None)
     /\ path (ctx s') = [] /\ strokeStyle (ctx s') = v
     /\ pending s' = (pending s ++ [LoadLayer (data l)])%list
     /\ isDrawing s' = isDrawing s /\ history s' = history s
     /\ heap s' = heap s)
  /\ (exists s', exec (PickColor v) s = Done s'
        /\ canvas s' = canvas s /\ path (ctx s') = path (ctx s)
        /\ strokeStyle (ctx s') = v /\ pending s' = pending s).
Proof.
  intros Hv Ho. split.
  - unfold Legacy.exec, Legacy.render. cbn [Legacy.handle].
    cbn [handleColorChange setColor color brushSize activeLayer].
    rewrite Hv. cbn [andb]. unfold Legacy.effect, loadLayer.
    set (s1 := setCtx _ _).
    assert (Ho1 : objectAt s1 (layers s1) (activeLayer s1) = Some (r, l))
      by (rewrite <- Ho; apply objectAt_heap; reflexivity).
    rewrite Ho1. eexists. split; [reflexivity|].
    split; [intros p; unfold pixelAt; cbn; destruct (inBounds _ p); reflexivity|].
    split; [cbn; unfold setLineWidth; destruct (Qlt_bool _ _); reflexivity|].
    split; [cbn; unfold setLineWidth; destruct (Qlt_bool _ _); reflexivity|].
    repeat split.
  - unfold exec, render. cbn [handle].
    cbn [handleColorChange setColor color brushSize activeLayer].
    rewrite Z.eqb_refl, Hv. cbn [andb]. eexists. split; [reflexivity|].
    unfold effectStyle. cbn.
    repeat split; unfold setLineWidth; destruct (Qlt_bool _ _); reflexivity.
Qed.

Lemma colour_change_then_and_now_witness :
  (exists s', Legacy.exec (Legacy.PickColor "#FF6363") brushPressed = Done s'
              /\ forall p, pixelAt (canvas s') p = None)
  /\ exists s', exec (PickColor "#FF6363") brushPressed = Done s'
                /\ canvas s' = canvas brushPressed.
Proof.
  assert (Ho : match objectAt brushPressed (layers brushPressed)
                       (activeLayer brushPressed) with
               | Some _ => true | None => false end = true)
    by (vm_compute; reflexivity).
  destruct (objectAt brushPressed (layers brushPressed)
              (activeLayer brushPressed)) as [[r l]|] eqn:Eo;
    [|discriminate Ho].
  destruct (colour_change_then_and_now "#FF6363" brushPressed r l)
    as [(s1 & E1 & B1 & _) (s2 & E2 & C2 & _)];
    [vm_compute; reflexivity | exact Eo |].
  split; [exists s1; split; assumption | exists s2; split; assumption].
Defined.

Lemma legacy_render_unchanged (s s' : State) :
  color s' = color s -> brushSize s' = brushSize s ->
  activeLayer s' = activeLayer s -> Legacy.render s s' = Done s'.
Proof.
  intros Hc Hb Ha. unfold Legacy.render.
  rewrite Hc, Hb, Ha, String.eqb_refl, Qeq_bool_refl, Z.eqb_refl. reflexivity.
Qed.

Lemma legacy_moves_idle_tool (ms : list (Q * Q)) (s : State) :
  String.eqb (tool s) "brush" = false ->
  String.eqb (tool s) "eraser" = false ->
  Legacy.run (map (fun m => Legacy.MouseMove (fst m) (snd m)) ms) s = Done s.
Proof.
  intros Hb He. induction ms as [|m ms IH]; [reflexivity|].
  cbn [map Legacy.run]. unfold Legacy.exec. cbn [Legacy.handle].
  assert (Hd : Legacy.draw (fst m) (snd m) s = s).
  { unfold Legacy.draw. rewrite Hb, He. destruct (isDrawing s); reflexivity. }
  rewrite Hd, legacy_render_unchanged by reflexivity. exact IH.
Qed.

(** X19. In the earlier version a gesture with a tool other than the brush
    and the eraser (the rectangle and circle buttons are there) draws
    nothing at all, on the moves or on the release, and is recorded: the
    canvas is as before the press and its snapshot is appended to the Undo
    Stack, the Redo Stack emptied. *)
Theorem legacy_shape_gesture (x y : Q) (ms : list (Q * Q)) (s : State)
    (r : nat) (l : Layer) :
  String.eqb (tool s) "brush" = false ->
  String.eqb (tool s) "eraser" = false ->
  objectAt s (layers s) (activeLayer s) = Some (r, l) ->
  exists s',
    Legacy.run (Legacy.MouseDown x y
                :: map (fun m => Legacy.MouseMove (fst m) (snd m)) ms
                ++ [Legacy.MouseUp]) s = Done s'
    /\ canvas s' = canvas s
    /\ history s' = (history s ++ [toDataURL (canvas s)])%list
    /\ redoStack s' = []
    /\ heap s' = writeData r (toDataURL (canvas s)) (heap s).
Proof.
  intros Hb He Ho.
  assert (Happ : forall cs1 cs2 s0,
            Legacy.run (cs1 ++ cs2) s0
            = andThen (Legacy.run cs1 s0) (Legacy.run cs2)).
  { induction cs1 as [|c cs1 IH]; intros cs2 s0; [reflexivity|].
    cbn [app Legacy.run]. destruct (Legacy.exec c s0); cbn [andThen]; auto. }
  set (s1 := Legacy.startDrawing x y s).
  assert (E1 : Legacy.exec (Legacy.MouseDown x y) s = Done s1)
    by (unfold Legacy.exec; cbn [Legacy.handle];
        apply legacy_render_unchanged; reflexivity).
  assert (Ho1 : objectAt s1 (layers s1) (activeLayer s1) = Some (r, l))
    by (rewrite <- Ho; apply objectAt_heap; reflexivity).
  assert (E3 : exists s', Legacy.exec Legacy.MouseUp s1 = Done s'
             /\ canvas s' = canvas s
             /\ history s' = (history s ++ [toDataURL (canvas s)])%list
             /\ redoStack s' = []
             /\ heap s' = writeData r (toDataURL (canvas s)) (heap s)).
  { unfold Legacy.exec. cbn [Legacy.handle]. unfold Legacy.endDrawing.
    replace (isDrawing s1) with true by reflexivity.
    rewrite Ho1, legacy_render_unchanged by reflexivity.
    eexists. split; [reflexivity|]. repeat split. }
  destruct E3 as (s' & E3 & Hrest).
  exists s'. split; [|exact Hrest].
  cbn [Legacy.run]. rewrite E1. cbn [andThen].
  rewrite Happ, (legacy_moves_idle_tool ms s1) by assumption.
  cbn [andThen Legacy.run]. rewrite E3. reflexivity.
Qed.

Lemma legacy_shape_gesture_witness :
  exists s',
    Legacy.run [Legacy.MouseDown 0 0; Legacy.MouseMove 100 50; Legacy.MouseUp]
               rectanglePressed = Done s'
    /\ canvas s' = canvas rectanglePressed.
Proof.
  assert (Ho : match objectAt rectanglePressed (layers rectanglePressed)
                       (activeLayer rectanglePressed) with
               | Some _ => true | None => false end = true)
    by (vm_compute; reflexivity).
  destruct (objectAt rectanglePressed (layers rectanglePressed)
              (activeLayer rectanglePressed)) as [[r l]|] eqn:Eo;
    [|discriminate Ho].
  destruct (legacy_shape_gesture 0 0 [(100, 50)%Q] rectanglePressed r l)
    as (s' & E & Hc & _);
    [vm_compute; reflexivity | vm_compute; reflexivity | exact Eo |].
  exists s'. split; [exact E | exact Hc].
Defined.

(** ** What a release records *)

(** X20. A release that ends a gesture on an existing active layer: the
    snapshot of the canvas as the release leaves it is appended to the
    Undo Stack and written, the same string, to the active layer's data;
    the gesture is over and the anchor forgotten; the other layer
    objects, the layer sequence, the active index and the images in
    flight are untouched.  With the brush and the eraser (any tool but
    rectangle and circle) the release itself paints nothing. *)
Theorem release_records_snapshot (e : PointerEvent) (s : State) (p : point)
    (r : nat) (l : Layer) :
  isDrawing s = true -> startPos s = Some p ->
  objectAt s (layers s) (activeLayer s) = Some (r, l) ->
  exists s', exec (PointerUp e) s = Done s'
    /\ history s' = (history s ++ [toDataURL (canvas s')])%list
    /\ heap s' !! r = Some (mkLayer (id l) (name l) (toDataURL (canvas s')))
    /\ (forall r', r' <> r -> heap s' !! r' = heap s !! r')
    /\ layers s' = layers s /\ activeLayer s' = activeLayer s
    /\ pending s' = pending s
    /\ isDrawing s' = false /\ startPos s' = None
    /\ (String.eqb (tool s) "rectangle" = false ->
        String.eqb (tool s) "circle" = false -> canvas s' = canvas s).
Proof.
  intros Hd Hp Ho. destruct p as [x y].
  destruct (endDrawing_commits (Some e) s x y r l Hd Hp Ho) as (ox & oy & He).
  cbv zeta in He.
  destruct (drawShape_sameStore x y ox oy s) as (Hh & Hl & Ha & Hhi & Hr & Hpe).
  destruct (drawShape_keeps x y ox oy s) as (_ & Hc & Hb).
  destruct (objectAt_lookup _ _ _ _ _ Ho) as [_ Hlk].
  unfold exec. cbn [handle]. rewrite He.
  rewrite render_unchanged; [|simpl; auto..].
  eexists. split; [reflexivity|]. simpl.
  split; [reflexivity|].
  split; [unfold writeData; rewrite list_lookup_alter, decide_True by reflexivity;
          rewrite Hlk; reflexivity|].
  split; [intros r' Hne; unfold writeData; apply list_lookup_alter_ne; congruence|].
  split; [reflexivity|]. split; [exact Ha|]. split; [exact Hpe|].
  split; [reflexivity|]. split; [reflexivity|].
  intros H1 H2. unfold drawShape. rewrite H1, H2. reflexivity.
Qed.

Lemma release_records_snapshot_witness :
  exists s', exec (PointerUp (MouseEvent 60 60)) pressedAfterUndo = Done s'
             /\ isDrawing s' = false
             /\ layers s' = layers pressedAfterUndo.
Proof.
  assert (Hp : match startPos pressedAfterUndo with
               | Some _ => true | None => false end = true)
    by (vm_compute; reflexivity).
  assert (Ho : match objectAt pressedAfterUndo (layers pressedAfterUndo)
                       (activeLayer pressedAfterUndo) with
               | Some _ => true | None => false end = true)
    by (vm_compute; reflexivity).
  destruct (startPos pressedAfterUndo) as [p|] eqn:Ep; [|discriminate Hp].
  destruct (objectAt pressedAfterUndo (layers pressedAfterUndo)
              (activeLayer pressedAfterUndo)) as [[r l]|] eqn:Eo;
    [|discriminate Ho].
  destruct (release_records_snapshot (MouseEvent 60 60) pressedAfterUndo p r l)
    as (s' & E & _ & _ & _ & Hl & _ & _ & Hd & _);
    [vm_compute; reflexivity | exact Ep | exact Eo |].
  exists s'. split; [exact E|]. split; [exact Hd | exact Hl].
Defined.
